(** * nsetools: the [Nse] client of [nse.py]

    A shallow embedding of the session handling, the reference-data cache,
    the response normaliser and the product queries of class [Nse], with the
    properties of the design document stated and settled against it.

    Conventions of the embedding:
    - a Python [str] is a [string]; only code points below 128 are modelled
      (case mapping and white space of other code points are not);
    - a Python [int] is a [Z], a Python [float] is an IEEE-754 binary64 value
      ([spec_float] at precision 53, maximal exponent 1024);
    - a Python [dict] with string keys is a [gmap string _];
    - a method is a function of the instance and of the world around it,
      returning a result or the exception it raises, and both states. *)

From Stdlib Require Import ZArith NArith String Ascii List Lia SpecFloat.
From stdpp Require Import base option gmap strings list fin_maps.

Local Open Scope string_scope.
Local Open Scope Z_scope.

(** ** Strings: the [str] methods the class uses *)

Module PyStr.

Definition ord (c : ascii) : N := N_of_ascii c.

Definition between (lo hi : N) (c : ascii) : bool :=
  ((lo <=? ord c) && (ord c <=? hi))%N.

(** [str.isspace] on one character: \t \n \v \f \r, the separators
    0x1c..0x1f and the space. *)
Definition isspace (c : ascii) : bool := between 9 13 c || between 28 32 c.

Definition isdigit (c : ascii) : bool := between 48 57 c.

Definition upper_char (c : ascii) : ascii :=
  if between 97 122 c then ascii_of_N (ord c - 32) else c.

Definition lower_char (c : ascii) : ascii :=
  if between 65 90 c then ascii_of_N (ord c + 32) else c.

(** [s.upper()] *)
Fixpoint upper (s : string) : string :=
  match s with
  | EmptyString => EmptyString
  | String c s' => String (upper_char c) (upper s')
  end.

(** [s.casefold()] *)
Fixpoint casefold (s : string) : string :=
  match s with
  | EmptyString => EmptyString
  | String c s' => String (lower_char c) (casefold s')
  end.

Section Strip.
Variable blank : ascii -> bool.

Fixpoint lstrip_chars (l : list ascii) : list ascii :=
  match l with
  | c :: l' => if blank c then lstrip_chars l' else l
  | [] => []
  end.

Definition strip_chars (l : list ascii) : list ascii :=
  rev (lstrip_chars (rev (lstrip_chars l))).
End Strip.

(** [s.strip()] *)
Definition strip (s : string) : string :=
  string_of_list_ascii (strip_chars isspace (list_ascii_of_string s)).

(** [s.split(sep)] for a separator of one character: always one piece
    more than there are separators. *)
Fixpoint split (sep : ascii) (s : string) : list string :=
  match s with
  | EmptyString => [EmptyString]
  | String c s' =>
      if Ascii.eqb c sep then EmptyString :: split sep s'
      else match split sep s' with
           | w :: ws => String c w :: ws
           | [] => [String c EmptyString]
           end
  end.

Fixpoint split_ws_go (acc : list ascii) (l : list ascii) : list string :=
  match l with
  | [] => match acc with
          | [] => []
          | _ => [string_of_list_ascii (rev acc)]
          end
  | c :: l' =>
      if isspace c then
        match acc with
        | [] => split_ws_go [] l'
        | _ => string_of_list_ascii (rev acc) :: split_ws_go [] l'
        end
      else split_ws_go (c :: acc) l'
  end.

(** [s.split()]: the maximal runs of characters that are not white space. *)
Definition split_ws (s : string) : list string :=
  split_ws_go [] (list_ascii_of_string s).

(** [sep.join(l)] *)
Fixpoint join (sep : string) (l : list string) : string :=
  match l with
  | [] => EmptyString
  | [w] => w
  | w :: ws => w +:+ sep +:+ join sep ws
  end.

(** [sub in s], which is [s.find(sub) != -1] and, for a pattern without
    special characters, [re.search(sub, s)] being a match. *)
Fixpoint contains (sub s : string) : bool :=
  String.prefix sub s ||
  match s with
  | EmptyString => false
  | String _ s' => contains sub s'
  end.

(** [l[i:j]] for [0 <= i <= j]. *)
Definition slice {A} (i j : nat) (l : list A) : list A :=
  take (j - i) (drop i l).

(** [s.isascii()]: every code point is below 128.  The methods above are
    those of Python on such strings. *)
Definition isascii (s : string) : bool :=
  forallb (fun c => (ord c <? 128)%N) (list_ascii_of_string s).

End PyStr.

(** ** Numbers: the constructors [int(s)] and [float(s)] on a [str] *)

Module PyNum.
Import PyStr.

(** The white space [int] and [float] skip at both ends of a string of
    code points below 128: \t \n \v \f \r and the space, not the
    separators 0x1c..0x1f that [str.isspace] also accepts. *)
Definition c_isspace (c : ascii) : bool :=
  between 9 13 c || Ascii.eqb c " ".

Definition is_underscore (c : ascii) : bool := Ascii.eqb c "_".

(** An underscore is accepted only between two digits.  [prev] is the
    character before [l], if any. *)
Fixpoint underscores_ok (prev : option ascii) (l : list ascii) : bool :=
  match l with
  | [] => match prev with
          | Some p => negb (is_underscore p)
          | None => true
          end
  | c :: l' =>
      (if is_underscore c
       then match prev with Some p => isdigit p | None => false end
       else match prev with
            | Some p => negb (is_underscore p) || isdigit c
            | None => true
            end)
      && underscores_ok (Some c) l'
  end.

Definition drop_underscores (l : list ascii) : list ascii :=
  List.filter (fun c => negb (is_underscore c)) l.

Definition digit_val (c : ascii) : Z := Z.of_N (ord c) - 48.

(** The value of a run of decimal digits, most significant first. *)
Definition digits_val (l : list ascii) : Z :=
  fold_left (fun acc c => 10 * acc + digit_val c) l 0.

Definition all_digits (l : list ascii) : bool := forallb isdigit l.

(** An optional sign: [true] for a minus. *)
Definition split_sign (l : list ascii) : bool * list ascii :=
  match l with
  | "-"%char :: r => (true, r)
  | "+"%char :: r => (false, r)
  | _ => (false, l)
  end.

Section IntLimit.
(** [sys.get_int_max_str_digits()]: 0 when the interpreter has no limit
    on the length of a decimal numeral (and before Python 3.11). *)
Variable max_str_digits : nat.

Definition too_many_digits (n : nat) : bool :=
  (0 <? max_str_digits)%nat && (640 <? n)%nat && (max_str_digits <? n)%nat.

(** [int(s)]: [None] stands for [ValueError]. *)
Definition int (s : string) : option Z :=
  let l := strip_chars c_isspace (list_ascii_of_string s) in
  let '(neg, body) := split_sign l in
  if underscores_ok None body then
    let ds := drop_underscores body in
    match ds with
    | [] => None
    | _ =>
        if all_digits ds && negb (too_many_digits (length ds))
        then Some (if neg then - digits_val ds else digits_val ds)
        else None
    end
  else None.
End IntLimit.

Definition prec : Z := 53.
Definition emax : Z := 1024.

(** The binary64 value nearest to [m * 10 ^ e10] (ties to even), for
    [0 <= m]; overflow gives an infinity, underflow a zero or a
    subnormal. *)
Definition decimal_to_float (neg : bool) (m e10 : Z) : spec_float :=
  match m with
  | Zpos p =>
      if 0 <=? e10
      then binary_round prec emax neg (Z.to_pos (Zpos p * 10 ^ e10)) 0
      else SFdiv prec emax (S754_finite neg p 0)
                 (S754_finite false (Z.to_pos (10 ^ (- e10))) 0)
  | _ => S754_zero neg
  end.

Definition chars_eqb (a b : list ascii) : bool :=
  String.eqb (string_of_list_ascii a) (string_of_list_ascii b).

(** The exponent part of a decimal numeral: empty, or [e] or [E], an
    optional sign and at least one digit. *)
Definition parse_exponent (l : list ascii) : option Z :=
  match l with
  | [] => Some 0
  | c :: t =>
      if Ascii.eqb c "e" || Ascii.eqb c "E" then
        let '(eneg, ds) := split_sign t in
        match ds with
        | [] => None
        | _ => if all_digits ds
               then Some (if eneg then - digits_val ds else digits_val ds)
               else None
        end
      else None
  end.

(** The longest prefix of digits, and what follows it. *)
Fixpoint span_digits (l : list ascii) : list ascii * list ascii :=
  match l with
  | c :: l' =>
      if isdigit c
      then let '(ds, r) := span_digits l' in (c :: ds, r)
      else ([], l)
  | [] => ([], [])
  end.

Definition parse_decimal (neg : bool) (r : list ascii) : option spec_float :=
  let '(ip, r1) := span_digits r in
  let '(fp, r2) := match r1 with
                   | "."%char :: t => span_digits t
                   | _ => ([], r1)
                   end in
  match (ip ++ fp)%list with
  | [] => None
  | ds =>
      match parse_exponent r2 with
      | Some e => Some (decimal_to_float neg (digits_val ds)
                          (e - Z.of_nat (length fp)))
      | None => None
      end
  end.

Definition parse_float (l : list ascii) : option spec_float :=
  let '(neg, r) := split_sign l in
  let low := map lower_char r in
  if chars_eqb low (list_ascii_of_string "inf")
     || chars_eqb low (list_ascii_of_string "infinity")
  then Some (S754_infinity neg)
  else if chars_eqb low (list_ascii_of_string "nan") then Some S754_nan
  else parse_decimal neg r.

(** [float(s)]: [None] stands for [ValueError]. *)
Definition float (s : string) : option spec_float :=
  let l := strip_chars c_isspace (list_ascii_of_string s) in
  if underscores_ok None l then parse_float (drop_underscores l) else None.

End PyNum.

(** ** Values, exceptions and results *)

#[local] Set Warnings "-register-all".

(** The values a decoded JSON document is made of. *)
Inductive pyval :=
| VNone
| VBool (b : bool)
| VInt (z : Z)
| VFloat (f : spec_float)
| VStr (s : string)
| VList (l : list pyval)
| VDict (d : gmap string pyval).

(** The exceptions that reach a caller of the class. *)
Inductive exn :=
| TransportError (detail : string)  (* raised by [Session.get] or [opener.open] *)
| JSONDecodeError                   (* raised by [Response.json] *)
| Exception (msg : string)        (* [raise Exception(msg)] *)
| KeyError (key : string)
| IndexError
| TypeError
| ValueError
| AttributeError.

Inductive result (A : Type) :=
| Ok (a : A)
| Raise (e : exn).
Arguments Ok {A} a.
Arguments Raise {A} e.

Definition is_transport_error (e : exn) : bool :=
  match e with
  | TransportError _ => true
  | _ => false
  end.

Module Res.
Definition bind {A B} (r : result A) (k : A -> result B) : result B :=
  match r with
  | Ok a => k a
  | Raise e => Raise e
  end.

(** A comprehension [[f(i) for i in l]]: the first exception ends it. *)
Fixpoint mapM {A B} (f : A -> result B) (l : list A) : result (list B) :=
  match l with
  | [] => Ok []
  | a :: l' => bind (f a) (fun b => bind (mapM f l') (fun bs => Ok (b :: bs)))
  end.

(** A [for] loop over [l] that updates [acc]: the first exception ends
    it. *)
Fixpoint foldM {A B} (f : A -> B -> result B) (l : list A) (acc : B)
  : result B :=
  match l with
  | [] => Ok acc
  | a :: l' => bind (f a acc) (foldM f l')
  end.
End Res.

(** [o is None] *)
Definition is_None {A} (o : option A) : bool :=
  match o with
  | None => true
  | Some _ => false
  end.

(** [v[k]] for a string key. *)
Definition subscript (v : pyval) (k : string) : result pyval :=
  match v with
  | VDict d => match d !! k with
               | Some x => Ok x
               | None => Raise (KeyError k)
               end
  | _ => Raise TypeError
  end.

(** [iter(v)]: the items a [for] or a comprehension visits.  The keys of a
    dictionary come in the order of [map_to_list]. *)
Definition py_iter (v : pyval) : result (list pyval) :=
  match v with
  | VList l => Ok l
  | VDict d => Ok (map (fun kv => VStr kv.1) (map_to_list d))
  | VStr s => Ok (map (fun c => VStr (String c EmptyString))
                      (list_ascii_of_string s))
  | _ => Raise TypeError
  end.

(** [v == code] for a string [code]. *)
Definition eq_str (v : pyval) (code : string) : bool :=
  match v with
  | VStr s => String.eqb s code
  | _ => false
  end.

(** [l[z]] as an index of the list, negative indices counting from the
    end; [None] stands for [IndexError]. *)
Definition list_index {A} (l : list A) (z : Z) : option nat :=
  let n := Z.of_nat (length l) in
  let i := if z <? 0 then z + n else z in
  if (0 <=? i) && (i <? n) then Some (Z.to_nat i) else None.

(** ** The response normaliser *)

Section Normalizer.
Variable max_str_digits : nat.

(** The body of the loop on a value of type [str]: [int], else [float],
    else nothing is assigned. *)
Definition cast_str (s : string) : option pyval :=
  match PyNum.int max_str_digits s with
  | Some z => Some (VInt z)
  | None =>
      match PyNum.float s with
      | Some f => Some (VFloat f)
      | None => None
      end
  end.

(** One turn of [for keys in d] on a dictionary. *)
Definition cast_step (keys : string) (d : gmap string pyval)
  : gmap string pyval :=
  match d !! keys with
  | Some (VStr s) =>
      match cast_str s with
      | Some v => <[keys := v]> d
      | None => d
      end
  | _ => d
  end.

Definition cast_dict (d : gmap string pyval) : gmap string pyval :=
  map_fold (fun keys _ acc => cast_step keys acc) d d.

(** One turn of [for keys in d] on a list: [keys] is the item at
    position [i], and [d[keys]] indexes the list with it. *)
Definition cast_list_step (i : nat) (d : list pyval) : result (list pyval) :=
  match d !! i with
  | None => Ok d
  | Some keys =>
      match match keys with
            | VInt z => Some z
            | VBool b => Some (if b then 1 else 0)
            | _ => None
            end with
      | None => Raise TypeError
      | Some z =>
          match list_index d z with
          | None => Raise IndexError
          | Some j =>
              match d !! j with
              | Some (VStr s) =>
                  match cast_str s with
                  | Some v => Ok (<[j := v]> d)
                  | None => Ok d
                  end
              | _ => Ok d
              end
          end
      end
  end.

Definition cast_list (d : list pyval) : result (list pyval) :=
  Res.foldM cast_list_step (seq 0 (length d)) d.

(** [Nse.cast_intfloat_string_values_to_intfloat]: [d.copy()] exists for
    a dictionary and for a list only. *)
Definition cast_intfloat_string_values_to_intfloat (d : pyval)
  : result pyval :=
  match d with
  | VDict m => Ok (VDict (cast_dict m))
  | VList l => Res.bind (cast_list l) (fun l' => Ok (VList l'))
  | _ => Raise AttributeError
  end.
End Normalizer.

(** ** The world around an instance *)

(** What [Response.json()] gives for a response of [Session.get]. *)
Record Response := { json : result pyval }.

(** A request on the wire: a GET of a [requests] session, or a call of the
    inherited [opener]. *)
Inductive request :=
| SessionGet (session : nat) (url : string)
| OpenerOpen (req : string).

(** What the class takes from outside.  The constants of [nsetools.urls],
    the inherited [opener] and the helpers of [nsetools.utils] are not part
    of the sources, and the clock and the network are not part of the
    program. *)
Record Env := {
  (** [datetime.now()] at its k-th reading, in microseconds *)
  now : nat -> Z;
  (** [session.get(url)] as the k-th request on the wire *)
  session_get : nat -> nat -> string -> result Response;
  (** [self.opener.open(req)] as the k-th request on the wire: an
      exception, [None], or the text that [byte_adaptor(res).read()]
      yields *)
  opener_open : nat -> string -> result (option string);
  (** [json.dumps] *)
  json_dumps : gmap string pyval -> string;
  (** [sys.get_int_max_str_digits()] *)
  int_max_str_digits : nat;
  NSE_HOME : string;
  TOP_GAINERS_URL : string;
  TOP_LOSERS_URL : string;
  ALL_INDICES_URL : string
}.

(** The state outside the instances: the clock readings taken, the
    requests issued (oldest first), the number of [requests.Session]
    objects made (a session is named by its rank), and the attribute
    [__CODECACHE__] of class [Nse] ([None] is Python's [None]). *)
Record World := {
  clock_reads : nat;
  traffic : list request;
  sessions_made : nat;
  __CODECACHE__ : option (gmap string pyval)
}.

(** An instance of [Nse].  [dict_CODECACHE] is the entry [__CODECACHE__]
    of the instance's own [__dict__], [None] while the instance has none. *)
Record Nse := {
  session_refresh_interval : Z;
  _session : nat;
  _session_init_time : Z;
  dict_CODECACHE : option (gmap string pyval)
}.

(** The world after one more reading of the clock, one more session
    object, one more request. *)
Definition tick (w : World) : World :=
  {| clock_reads := S (clock_reads w);
     traffic := traffic w;
     sessions_made := sessions_made w;
     __CODECACHE__ := __CODECACHE__ w |}.

Definition alloc (w : World) : World :=
  {| clock_reads := clock_reads w;
     traffic := traffic w;
     sessions_made := S (sessions_made w);
     __CODECACHE__ := __CODECACHE__ w |}.

Definition send (rq : request) (w : World) : World :=
  {| clock_reads := clock_reads w;
     traffic := traffic w ++ [rq];
     sessions_made := sessions_made w;
     __CODECACHE__ := __CODECACHE__ w |}.

(** The instance after an assignment to one of its attributes. *)
Definition with_session (session : nat) (self : Nse) : Nse :=
  {| session_refresh_interval := session_refresh_interval self;
     _session := session;
     _session_init_time := _session_init_time self;
     dict_CODECACHE := dict_CODECACHE self |}.

Definition with_init_time (t : Z) (self : Nse) : Nse :=
  {| session_refresh_interval := session_refresh_interval self;
     _session := _session self;
     _session_init_time := t;
     dict_CODECACHE := dict_CODECACHE self |}.

Definition with_CODECACHE (res_dict : gmap string pyval) (self : Nse) : Nse :=
  {| session_refresh_interval := session_refresh_interval self;
     _session := _session self;
     _session_init_time := _session_init_time self;
     dict_CODECACHE := Some res_dict |}.

(** What a method with an [as_json] flag returns. *)
Inductive rendered :=
| Native (data : gmap string pyval)
| Json (text : string).

(** [timedelta.seconds] of a difference of [us] microseconds: the seconds
    within the day, the days being held by [timedelta.days]. *)
Definition timedelta_seconds (us : Z) : Z :=
  (us mod 86400000000) / 1000000.

(** ** Methods: state and exceptions *)

Definition M (A : Type) : Type := Nse * World -> result A * (Nse * World).

Definition ret {A} (a : A) : M A := fun st => (Ok a, st).

Definition raise {A} (e : exn) : M A := fun st => (Raise e, st).

Definition bind {A B} (m : M A) (k : A -> M B) : M B :=
  fun st =>
    match m st with
    | (Ok a, st') => k a st'
    | (Raise e, st') => (Raise e, st')
    end.

Definition lift {A} (r : result A) : M A := fun st => (r, st).

Notation "x <- m ;; k" := (bind m (fun x => k))
  (at level 100, m at next level, right associativity).
Notation "m ;;; k" := (bind m (fun _ => k))
  (at level 100, right associativity).

Section Class.
Variable E : Env.

(** *** Primitives *)

(** [dt.now()] *)
Definition dt_now : M Z :=
  fun '(self, w) => (Ok (now E (clock_reads w)), (self, tick w)).

(** [requests.Session()] *)
Definition requests_Session : M nat :=
  fun '(self, w) => (Ok (sessions_made w), (self, alloc w)).

(** [session.get(url)] *)
Definition Session_get (session : nat) (url : string) : M Response :=
  fun '(self, w) =>
    (session_get E (length (traffic w)) session url,
     (self, send (SessionGet session url) w)).

(** [self.opener.open(req)] *)
Definition opener_open_ (req : string) : M (option string) :=
  fun '(self, w) =>
    (opener_open E (length (traffic w)) req, (self, send (OpenerOpen req) w)).

Definition get_self : M Nse := fun st => (Ok st.1, st).

(** [self._session = session] *)
Definition set_session (session : nat) : M unit :=
  fun '(self, w) => (Ok tt, (with_session session self, w)).

(** [self._session_init_time = t] *)
Definition set_session_init_time (t : Z) : M unit :=
  fun '(self, w) => (Ok tt, (with_init_time t self, w)).

(** The attribute lookup [self.__CODECACHE__]: the instance's own entry
    when it has one, the attribute of the class otherwise. *)
Definition lookup_CODECACHE (self : Nse) (w : World)
  : option (gmap string pyval) :=
  match dict_CODECACHE self with
  | Some d => Some d
  | None => __CODECACHE__ w
  end.

Definition get_CODECACHE : M (option (gmap string pyval)) :=
  fun '(self, w) => (Ok (lookup_CODECACHE self w), (self, w)).

(** The assignment [self.__CODECACHE__ = res_dict]: it writes the
    instance's own entry. *)
Definition set_CODECACHE (res_dict : gmap string pyval) : M unit :=
  fun '(self, w) => (Ok tt, (with_CODECACHE res_dict self, w)).

(** Modelled from the spec: the inherited [render_response], which the
    sources use and do not define: with [as_json] the result is
    serialised to its textual JSON representation, and it is the native
    value otherwise.  Both callers pass a mapping: the entry is not [None]
    once the block before the call is over. *)
Definition render_response (data : option (gmap string pyval))
  (as_json : bool) : M rendered :=
  match data with
  | Some d => ret (if as_json then Json (json_dumps E d) else Native d)
  | None => raise TypeError
  end.

(** *** The session *)

(** [Nse.create_session] *)
Definition create_session : M unit :=
  session <- requests_Session ;;
  set_session session ;;;
  (* [self._session.headers.update(self.nse_headers())] *)
  Session_get session (NSE_HOME E) ;;;
  t <- dt_now ;;
  set_session_init_time t.

(** [Nse.fetch]; what it prints is left out. *)
Definition fetch (url : string) : M Response :=
  t <- dt_now ;;
  self <- get_self ;;
  let time_diff := t - _session_init_time self in
  if timedelta_seconds time_diff <? session_refresh_interval self then
    Session_get (_session self) url
  else
    create_session ;;;
    self' <- get_self ;;
    Session_get (_session self') url.

(** [Nse.__init__] on a new object. *)
Definition init (session_refresh_interval : Z) (w : World)
  : result unit * (Nse * World) :=
  create_session
    ({| session_refresh_interval := session_refresh_interval;
        _session := 0%nat;
        _session_init_time := 0;
        dict_CODECACHE := None |}, w).

(** *** The reference data *)

(** The body of the loop of [get_stock_codes] on one line. *)
Definition stock_codes_line (line : string) (res_dict : gmap string pyval)
  : result (gmap string pyval) :=
  if negb (String.eqb line "") && PyStr.contains "," line then
    match PyStr.slice 0 2 (PyStr.split "," line) with
    | [code; name] => Ok (<[code := VStr name]> res_dict)
    | _ => Raise ValueError
    end
  else Ok res_dict.

(** [Nse.get_stock_codes] *)
Definition get_stock_codes (cached as_json : bool) : M rendered :=
  let req := "Request(url, None, self.headers)" in
  let res_dict : gmap string pyval := ∅ in
  cache <- get_CODECACHE ;;
  (if negb cached || is_None cache then
     res <- opener_open_ req ;;
     match res with
     | Some text =>
         res_dict <- lift (Res.foldM stock_codes_line
                             (PyStr.split "010" text) res_dict) ;;
         set_CODECACHE res_dict
     | None => raise (Exception "no response received")
     end
   else ret tt) ;;;
  cache <- get_CODECACHE ;;
  render_response cache as_json.

(** The body of the loop of [get_fno_lot_sizes] on one line. *)
Definition fno_lot_sizes_line (line : string) (res_dict : gmap string pyval)
  : result (gmap string pyval) :=
  if negb (String.eqb line "") && PyStr.contains "," line
     && negb (PyStr.contains "symbol" (PyStr.casefold line)) then
    match map PyStr.strip (PyStr.slice 1 3 (PyStr.split "," line)) with
    | [code; name] =>
        match PyNum.int (int_max_str_digits E) name with
        | Some z => Ok (<[code := VInt z]> res_dict)
        | None => Raise ValueError
        end
    | _ => Raise ValueError
    end
  else Ok res_dict.

(** [Nse.get_fno_lot_sizes] *)
Definition get_fno_lot_sizes (cached as_json : bool) : M rendered :=
  let req := "Request(url, None, self.headers)" in
  let res_dict : gmap string pyval := ∅ in
  cache <- get_CODECACHE ;;
  (if negb cached || is_None cache then
     res <- opener_open_ req ;;
     match res with
     | Some text =>
         res_dict <- lift (Res.foldM fno_lot_sizes_line
                             (PyStr.split "010" text) res_dict) ;;
         set_CODECACHE res_dict
     | None => raise (Exception "no response received")
     end
   else ret tt) ;;;
  cache <- get_CODECACHE ;;
  render_response cache as_json.

(** [Nse.is_valid_code]: [None] is Python's [None], returned when the
    body falls off its end. *)
Definition is_valid_code (code : string) : M (option bool) :=
  if negb (String.eqb code "") then
    stock_codes <- get_stock_codes true false ;;
    match stock_codes with
    | Native d =>
        if bool_decide (PyStr.upper code ∈ dom d)
        then ret (Some true)
        else ret (Some false)
    | Json _ => raise AttributeError
    end
  else ret None.

(** *** The queries *)

Definition cast := cast_intfloat_string_values_to_intfloat
                     (int_max_str_digits E).

(** [Nse.get_top_gainers] *)
Definition get_top_gainers (index : option string) : M pyval :=
  let url := TOP_GAINERS_URL E in
  res <- fetch url ;;
  res_dict <- lift (json res) ;;
  match index with
  | None => lift (cast res_dict)
  | Some index =>
      res_dict <- lift (subscript res_dict index) ;;
      lift (subscript res_dict "data")
  end.

(** [Nse.get_top_losers] *)
Definition get_top_losers (index : option string) : M pyval :=
  let url := TOP_LOSERS_URL E in
  res <- fetch url ;;
  res_dict <- lift (json res) ;;
  match index with
  | None => lift (cast res_dict)
  | Some index =>
      res_dict <- lift (subscript res_dict index) ;;
      lift (subscript res_dict "data")
  end.

(** [Nse.get_all_index_quote] *)
Definition get_all_index_quote : M pyval :=
  let url := ALL_INDICES_URL E in
  res <- fetch url ;;
  body <- lift (json res) ;;
  lift (subscript body "data").

(** [[i['indexSymbol'] for i in all_index_quote]] *)
Definition index_symbols (all_index_quote : pyval) : result (list pyval) :=
  Res.bind (py_iter all_index_quote)
           (Res.mapM (fun i => subscript i "indexSymbol")).

(** [Nse.get_index_list] *)
Definition get_index_list : M (list pyval) :=
  all_index_quote <- get_all_index_quote ;;
  lift (index_symbols all_index_quote).

(** [list(filter(lambda idx: idx['indexSymbol'] == code, l))] *)
Fixpoint filter_symbol (code : string) (l : list pyval)
  : result (list pyval) :=
  match l with
  | [] => Ok []
  | idx :: l' =>
      Res.bind (subscript idx "indexSymbol") (fun sym =>
      Res.bind (filter_symbol code l') (fun r =>
      Ok (if eq_str sym code then idx :: r else r)))
  end.

(** [code.upper()] followed by [' '.join(code.split())] *)
Definition normalize_code (code : string) : string :=
  PyStr.join " " (PyStr.split_ws (PyStr.upper code)).

(** [Nse.get_index_quote] *)
Definition get_index_quote (code : string) : M pyval :=
  all_index_quote <- get_all_index_quote ;;
  index_list <- lift (index_symbols all_index_quote) ;;
  let code := normalize_code code in
  if existsb (fun x => eq_str x code) index_list then
    items <- lift (py_iter all_index_quote) ;;
    found <- lift (filter_symbol code items) ;;
    match found with
    | response :: _ => lift (cast response)
    | [] => raise IndexError
    end
  else raise (Exception "Wrong index code").

End Class.

(** ** The statements of the design document, and the scenarios used below *)

(** The normaliser as the design document words it: on a string, the
    integer parse, on failure the floating-point parse, on failure the
    string itself; a value that is not a string is left as it is. *)
Definition spec_normalize_value (max_str_digits : nat) (v : pyval) : pyval :=
  match v with
  | VStr s =>
      match PyNum.int max_str_digits s with
      | Some z => VInt z
      | None =>
          match PyNum.float s with
          | Some f => VFloat f
          | None => VStr s
          end
      end
  | _ => v
  end.

Definition spec_normalize (max_str_digits : nat) (r : gmap string pyval)
  : gmap string pyval :=
  spec_normalize_value max_str_digits <$> r.

(** The binary64 number written [123.45]. *)
Definition float_123_45 : spec_float :=
  S754_finite false 8687021468732621 (-46).

(** [{"ltp": "123.45", "change": "-", "volume": "1000"}] *)
Definition quote_record : gmap string pyval :=
  <["ltp" := VStr "123.45"]>
    (<["change" := VStr "-"]> (<["volume" := VStr "1000"]> ∅)).

(** [{"ltp": 123.45, "change": "-", "volume": 1000}] *)
Definition quote_record_normalized : gmap string pyval :=
  <["ltp" := VFloat float_123_45]>
    (<["change" := VStr "-"]> (<["volume" := VInt 1000]> ∅)).

(** The session manager as the design document states it: two calls made
    within the refresh interval of each other use the same session and make
    no new one ... *)
Definition sessions_shared_by_close_calls : Prop :=
  forall (E : Env) (self : Nse) (w : World) (url1 url2 : string),
    let t1 := now E (clock_reads w) in
    let s1 := (fetch E url1 (self, w)).2 in
    let t2 := now E (clock_reads s1.2) in
    let s2 := (fetch E url2 s1).2 in
    0 <= t2 - t1 < session_refresh_interval self * 1000000 ->
    _session s2.1 = _session s1.1 /\ sessions_made s2.2 = sessions_made s1.2.

(** ... and a call made once the interval has elapsed since the creation
    of the session makes exactly one session, a new one. *)
Definition expired_call_bootstraps_once : Prop :=
  forall (E : Env) (self : Nse) (w : World) (url : string),
    (_session self < sessions_made w)%nat ->
    session_refresh_interval self * 1000000
      <= now E (clock_reads w) - _session_init_time self ->
    let s' := (fetch E url (self, w)).2 in
    sessions_made s'.2 = S (sessions_made w) /\ _session s'.1 <> _session self.

Definition session_manager_as_stated : Prop :=
  sessions_shared_by_close_calls /\ expired_call_bootstraps_once.

(** The request both reference-data methods hand to the opener. *)
Definition opener_request : request :=
  OpenerOpen "Request(url, None, self.headers)".

(** The symbol directory as the design document states it: two cached calls
    issue at most one fetch ... *)
Definition cached_calls_fetch_at_most_once : Prop :=
  forall (E : Env) (st : Nse * World) (as_json1 as_json2 : bool),
    let s1 := (get_stock_codes E true as_json1 st).2 in
    let s2 := (get_stock_codes E true as_json2 s1).2 in
    (length (traffic s2.2) <= S (length (traffic st.2)))%nat.

(** ... and a call that is not cached always issues one. *)
Definition uncached_call_fetches : Prop :=
  forall (E : Env) (st : Nse * World) (as_json : bool),
    traffic (get_stock_codes E false as_json st).2.2
    = (traffic st.2 ++ [opener_request])%list.

Definition symbol_directory_as_stated : Prop :=
  cached_calls_fetch_at_most_once /\ uncached_call_fetches.

(** The cache as the design document states it: once an instance [a] has
    fetched the directory, a cached call of any instance [b] issues no
    fetch. *)
Definition cache_shared_across_instances : Prop :=
  forall (E : Env) (a b a' : Nse) (w w' : World) (r : rendered)
         (as_json : bool),
    get_stock_codes E true false (a, w) = (Ok r, (a', w')) ->
    traffic w' = (traffic w ++ [opener_request])%list ->
    traffic (get_stock_codes E true as_json (b, w')).2.2 = traffic w'.

(** What a method with an [as_json] flag returns for the mapping [d]. *)
Definition rendering (E : Env) (d : gmap string pyval) (as_json : bool)
  : rendered :=
  if as_json then Json (json_dumps E d) else Native d.

(** The two reference-data products. *)
Inductive product := SymbolDirectory | LotSizes.

Definition reference_data (E : Env) (p : product) (cached as_json : bool)
  : M rendered :=
  match p with
  | SymbolDirectory => get_stock_codes E cached as_json
  | LotSizes => get_fno_lot_sizes E cached as_json
  end.

(** Cached calls made one after the other, each with its product and its
    [as_json] flag. *)
Fixpoint cached_calls (E : Env) (calls : list (product * bool))
  : M (list rendered) :=
  match calls with
  | [] => ret []
  | (p, as_json) :: rest =>
      r <- reference_data E p true as_json ;;
      rs <- cached_calls E rest ;;
      ret (r :: rs)
  end.

(** The two list-valued queries with an optional selector. *)
Inductive movers := Gainers | Losers.

Definition movers_url (E : Env) (q : movers) : string :=
  match q with
  | Gainers => TOP_GAINERS_URL E
  | Losers => TOP_LOSERS_URL E
  end.

Definition get_top (E : Env) (q : movers) (index : option string) : M pyval :=
  match q with
  | Gainers => get_top_gainers E index
  | Losers => get_top_losers E index
  end.

(** The loop body of each product. *)
Definition parse_line (E : Env) (p : product)
  : string -> gmap string pyval -> result (gmap string pyval) :=
  match p with
  | SymbolDirectory => stock_codes_line
  | LotSizes => fno_lot_sizes_line E
  end.

(** The exception a fetch of reference data ends with, if it fails before
    a line is read: the one the opener raised, or the one raised for a
    missing response. *)
Definition fetch_failure (out : result (option string)) : option exn :=
  match out with
  | Raise e => Some e
  | Ok None => Some (Exception "no response received")
  | Ok (Some _) => None
  end.

(** *** Scenarios *)

Definition newline : string := String "010" EmptyString.

(** A world before any instance is made. *)
Definition world0 : World :=
  {| clock_reads := 0; traffic := []; sessions_made := 0;
     __CODECACHE__ := None |}.

(** The payload of the index endpoint in the scenarios: one index. *)
Definition nifty_quote : pyval :=
  VDict (<["indexSymbol" := VStr "NIFTY 50"]> (<["last" := VStr "22000.5"]> ∅)).

Definition indices_payload : pyval :=
  VDict (<["data" := VList [nifty_quote]]> ∅).

(** The payload of the gainers and losers endpoints in the scenarios. *)
Definition movers_payload : gmap string pyval :=
  <["NIFTY" := VDict (<["data" := VList [VDict (<["ltp" := VStr "123.45"]> ∅)]]> ∅)]> ∅.

Definition demo_get (k session : nat) (url : string) : result Response :=
  if String.eqb url "indices" then Ok {| json := Ok indices_payload |}
  else if String.eqb url "gainers" || String.eqb url "losers"
       then Ok {| json := Ok (VDict movers_payload) |}
       else Ok {| json := Ok VNone |}.

Definition demo_csv : string :=
  "SYMBOL,NAME OF COMPANY" +:+ newline +:+ "INFY,Infosys Limited" +:+ newline.

Definition mkEnv (clock : nat -> Z)
  (open : nat -> string -> result (option string)) : Env :=
  {| now := clock;
     session_get := demo_get;
     opener_open := open;
     json_dumps := fun _ => "{}";
     int_max_str_digits := 4300;
     NSE_HOME := "home";
     TOP_GAINERS_URL := "gainers";
     TOP_LOSERS_URL := "losers";
     ALL_INDICES_URL := "indices" |}.

(** A clock that advances by one second at each reading, and an opener
    that serves [demo_csv]. *)
Definition E_demo : Env :=
  mkEnv (fun k => Z.of_nat k * 1000000) (fun _ _ => Ok (Some demo_csv)).

(** The same with an opener that cannot reach the server. *)
Definition E_down : Env :=
  mkEnv (fun k => Z.of_nat k * 1000000)
        (fun _ _ => Raise (TransportError "URLError")).

(** The same with an opener that serves [demo_csv] to the second request on
    the wire and cannot reach the server afterwards. *)
Definition E_flaky : Env :=
  mkEnv (fun k => Z.of_nat k * 1000000)
        (fun k _ => if (k <=? 1)%nat then Ok (Some demo_csv)
                    else Raise (TransportError "URLError")).

Definition lot_size_csv : string :=
  "UNDERLYING,SYMBOL,LOT" +:+ newline +:+ "Infosys, INFY , 300" +:+ newline.

(** The same with an opener that serves [demo_csv] to the second request on
    the wire and [lot_size_csv] afterwards. *)
Definition E_products : Env :=
  mkEnv (fun k => Z.of_nat k * 1000000)
        (fun k _ => if (k <=? 1)%nat then Ok (Some demo_csv)
                    else Ok (Some lot_size_csv)).

(** The mapping [get_fno_lot_sizes] builds from [lot_size_csv]. *)
Definition demo_lot_sizes : gmap string pyval := <["INFY" := VInt 300]> ∅.

(** A clock reading 0 s, 100 s, then 130 s. *)
Definition E_clock : Env :=
  mkEnv (fun k => match k with
                  | O => 0
                  | S O => 100000000
                  | _ => 130000000
                  end)
        (fun _ _ => Ok (Some demo_csv)).

(** A clock reading 0 s, then one day and ten seconds. *)
Definition E_next_day : Env :=
  mkEnv (fun k => match k with
                  | O => 0
                  | _ => 86410000000
                  end)
        (fun _ _ => Ok (Some demo_csv)).

(** The mapping [get_stock_codes] builds from [demo_csv]: the heading
    line is an entry like the others. *)
Definition demo_directory : gmap string pyval :=
  <["SYMBOL" := VStr "NAME OF COMPANY"]>
    (<["INFY" := VStr "Infosys Limited"]> ∅).

(** An instance made by [Nse()] in [world0]. *)
Definition client (E : Env) : Nse * World := (init E 120 world0).2.

(** The instance after its first cached call of [get_stock_codes]. *)
Definition cached_client (E : Env) : Nse * World :=
  (get_stock_codes E true false (client E)).2.

(** The [data] list of the selector [NIFTY] in [movers_payload]. *)
Definition nifty_movers : pyval :=
  VList [VDict (<["ltp" := VStr "123.45"]> ∅)].

(** Two instances made one after the other, and the world after both. *)
Definition two_clients (E : Env) : Nse * Nse * World :=
  let a := client E in
  let b := (init E 120 a.2).2 in
  (a.1, b.1, b.2).

(** *** Runs of calls and invariants *)

(** The session an instance holds is one that has been made. *)
Definition session_made (st : Nse * World) : Prop :=
  (_session st.1 < sessions_made st.2)%nat.

(** The calls [fetch(url)] for the [urls] in turn, by a caller that goes
    on after an exception: the state after the last call. *)
Definition fetch_all (E : Env) (urls : list string) (st : Nse * World)
  : Nse * World :=
  foldl (fun st url => (fetch E url st).2) st urls.

(** The world after the requests [rqs], a reading of the clock before
    each. *)
Definition after_requests (rqs : list request) (w : World) : World :=
  {| clock_reads := clock_reads w + length rqs;
     traffic := traffic w ++ rqs;
     sessions_made := sessions_made w;
     __CODECACHE__ := __CODECACHE__ w |}.

(** Whether [fetch] finds the session expired at its reading of the
    clock. *)
Definition expired (E : Env) (st : Nse * World) : bool :=
  negb (timedelta_seconds (now E (clock_reads st.2) - _session_init_time st.1)
          <? session_refresh_interval st.1).

(** A network whose requests for the home page fail. *)
Definition home_down (k session : nat) (url : string) : result Response :=
  if String.eqb url "home" then Raise (TransportError "ConnectionError")
  else Ok {| json := Ok VNone |}.

(** An instance whose session was made at 0 s, at a time when the clock
    reads 200 s and the home page cannot be reached. *)
Definition E_home_down : Env :=
  {| now := fun _ => 200000000;
     session_get := home_down;
     opener_open := fun _ _ => Ok None;
     json_dumps := fun _ => "{}";
     int_max_str_digits := 4300;
     NSE_HOME := "home";
     TOP_GAINERS_URL := "gainers";
     TOP_LOSERS_URL := "losers";
     ALL_INDICES_URL := "indices" |}.

(** An instance with refresh interval [interval], whose session 0 was
    made at 0 s. *)
Definition client_with (interval : Z) : Nse * World :=
  ({| session_refresh_interval := interval;
      _session := 0%nat;
      _session_init_time := 0;
      dict_CODECACHE := None |},
   {| clock_reads := 1; traffic := [SessionGet 0 "home"];
      sessions_made := 1; __CODECACHE__ := None |}).

(** *** The lines of the reference data *)

(** The entry a line of the symbol file makes: its first two fields, when
    the line has a comma. *)
Definition stock_entry (line : string) : option (string * pyval) :=
  if PyStr.contains "," line then
    match PyStr.split "," line with
    | code :: name :: _ => Some (code, VStr name)
    | _ => None
    end
  else None.

(** The entries of the lines of a text, in the order of the lines. *)
Definition stock_entries (text : string) : list (string * pyval) :=
  omap stock_entry (PyStr.split "010" text).

(** A line of the lot-size file that is read: it has a comma and does not
    hold the word [symbol] in any letter case. *)
Definition lot_size_line_read (line : string) : bool :=
  PyStr.contains "," line && negb (PyStr.contains "symbol" (PyStr.casefold line)).

(** A symbol file with a heading, two lines for one code, a line without
    a comma and an empty line. *)
Definition override_csv : string :=
  "SYMBOL,NAME" +:+ newline +:+ "INFY,Old name" +:+ newline +:+ "no comma"
  +:+ newline +:+ newline +:+ "INFY,Infosys Limited,EQ" +:+ newline.

Definition E_override : Env :=
  mkEnv (fun k => Z.of_nat k * 1000000) (fun _ _ => Ok (Some override_csv)).

(** A lot-size file whose second data line has no lot. *)
Definition broken_lot_csv : string :=
  "UNDERLYING,SYMBOL,LOT" +:+ newline +:+ "Infosys,INFY,300" +:+ newline
  +:+ "Tata,TCS" +:+ newline.

(** An opener that serves [demo_csv] to the second request on the wire
    and [broken_lot_csv] afterwards. *)
Definition E_broken_lots : Env :=
  mkEnv (fun k => Z.of_nat k * 1000000)
        (fun k _ => if (k <=? 1)%nat then Ok (Some demo_csv)
                    else Ok (Some broken_lot_csv)).

(** *** Characters of numerals *)

(** The characters [int] and [float] accept somewhere in a string: the
    white space they skip, the digits, the underscore, the signs, the
    point, the letters of the exponent, and the letters of [inf],
    [infinity] and [nan] in either case. *)
Definition numeric_char (c : ascii) : bool :=
  PyNum.c_isspace c || PyStr.isdigit c || PyNum.is_underscore c
  || existsb (Ascii.eqb c) (list_ascii_of_string "+-.eE")
  || existsb (Ascii.eqb (PyStr.lower_char c))
       (list_ascii_of_string "infinitynan").

(** The values [list.__getitem__] takes for an index. *)
Definition is_index (v : pyval) : bool :=
  match v with
  | VInt _ | VBool _ => true
  | _ => false
  end.

(** [{"lot": "1,000", "when": "12:30", "ltp": "7"}] *)
Definition grouped_record : gmap string pyval :=
  <["lot" := VStr "1,000"]> (<["when" := VStr "12:30"]> (<["ltp" := VStr "7"]> ∅)).

(** A network that answers every request with an array of one record. *)
Definition array_get (k session : nat) (url : string) : result Response :=
  Ok {| json := Ok (VList [nifty_quote]) |}.

Definition E_array : Env :=
  {| now := fun k => Z.of_nat k * 1000000;
     session_get := array_get;
     opener_open := fun _ _ => Ok None;
     json_dumps := fun _ => "{}";
     int_max_str_digits := 4300;
     NSE_HOME := "home";
     TOP_GAINERS_URL := "gainers";
     TOP_LOSERS_URL := "losers";
     ALL_INDICES_URL := "indices" |}.

(** ** The remaining queries *)

(** What these queries take from outside in addition to [Env]: the two
    URL templates of [nsetools.urls] applied to a code, and the JSON
    functions they use on the response of the opener. *)
Record Catalog := {
  (** [urls.QUOTE_API_URL % code] *)
  QUOTE_API_URL : string -> result string;
  (** [urls.EQUITY_STOCK_INDICES_URL % code] *)
  EQUITY_STOCK_INDICES_URL : string -> result string;
  (** [json.load(byte_adaptor(res))] for a response of the opener with the
      given text *)
  json_load : string -> result pyval;
  (** [json.load(byte_adaptor(None))] *)
  json_load_None : result pyval;
  (** [json.dumps] of a list *)
  json_dumps_list : list pyval -> string
}.

(** What [render_response] returns for a list. *)
Inductive rendered_list :=
| NativeList (data : list pyval)
| JsonList (text : string).

(** [Nse.clean_server_response]: the body is [pass]. *)
Definition clean_server_response (resp_dict : pyval) : pyval := VNone.

Section MoreQueries.
Variable E : Env.
Variable C : Catalog.

(** Modelled from the spec: the inherited [render_response] on a list,
    as [render_response] above on a mapping. *)
Definition render_response_list (data : list pyval) (as_json : bool)
  : M rendered_list :=
  ret (if as_json then JsonList (json_dumps_list C data) else NativeList data).

(** [Nse.get_quote] *)
Definition get_quote (code : string) (all_data : bool) : M pyval :=
  let code := PyStr.upper code in
  url <- lift (QUOTE_API_URL C code) ;;
  res <- fetch E url ;;
  res <- (if negb all_data
          then body <- lift (json res) ;; lift (subscript body "priceInfo")
          else lift (json res)) ;;
  lift (cast E res).

(** [Nse.get_advances_declines] *)
Definition get_advances_declines (code : string) : M pyval :=
  let code := PyStr.upper code in
  let code := PyStr.join " " (PyStr.split_ws code) in
  url <- lift (EQUITY_STOCK_INDICES_URL C code) ;;
  res <- fetch E url ;;
  body <- lift (json res) ;;
  response <- lift (subscript body "advance") ;;
  lift (cast E response).

(** [Nse.get_top_fno_gainers] *)
Definition get_top_fno_gainers (as_json : bool) : M rendered_list :=
  let req := "Request(url, None, self.headers)" in
  res <- opener_open_ E req ;;
  res_dict <- lift (match res with
                    | Some text => json_load C text
                    | None => json_load_None C
                    end) ;;
  data <- lift (subscript res_dict "data") ;;
  items <- lift (py_iter data) ;;
  let res_list := map clean_server_response items in
  render_response_list res_list as_json.

(** [Nse.get_top_fno_losers] *)
Definition get_top_fno_losers (as_json : bool) : M rendered_list :=
  let req := "Request(url, None, self.headers)" in
  res <- opener_open_ E req ;;
  res_dict <- lift (match res with
                    | Some text => json_load C text
                    | None => json_load_None C
                    end) ;;
  data <- lift (subscript res_dict "data") ;;
  items <- lift (py_iter data) ;;
  let res_list := map clean_server_response items in
  render_response_list res_list as_json.

End MoreQueries.

(** The two queries on the derivatives movers. *)
Definition get_top_fno (E : Env) (C : Catalog) (q : movers) (as_json : bool)
  : M rendered_list :=
  match q with
  | Gainers => get_top_fno_gainers E C as_json
  | Losers => get_top_fno_losers E C as_json
  end.

(** What [render_response] returns for the list [l]. *)
Definition rendering_list (C : Catalog) (l : list pyval) (as_json : bool)
  : rendered_list :=
  if as_json then JsonList (json_dumps_list C l) else NativeList l.

(** *** Scenarios for the remaining queries *)

(** The payload of the quote endpoint in the scenarios. *)
Definition quote_payload : gmap string pyval :=
  <["priceInfo" := VDict (<["lastPrice" := VStr "1520.5"]>
                            (<["change" := VStr "-"]> ∅))]>
    (<["info" := VDict (<["symbol" := VStr "INFY"]> ∅)]> ∅).

(** The payload of the derivatives movers in the scenarios: two
    records. *)
Definition fno_payload : pyval :=
  VDict (<["data" := VList [VDict (<["symbol" := VStr "INFY"]> ∅);
                            VDict (<["symbol" := VStr "TCS"]> ∅)]]> ∅).

Definition quote_get (k session : nat) (url : string) : result Response :=
  if String.eqb url "quote?symbol=INFY"
  then Ok {| json := Ok (VDict quote_payload) |}
  else Ok {| json := Ok (VDict ∅) |}.

Definition E_quote : Env :=
  {| now := fun k => Z.of_nat k * 1000000;
     session_get := quote_get;
     opener_open := fun _ _ => Ok (Some "fno");
     json_dumps := fun _ => "{}";
     int_max_str_digits := 4300;
     NSE_HOME := "home";
     TOP_GAINERS_URL := "gainers";
     TOP_LOSERS_URL := "losers";
     ALL_INDICES_URL := "indices" |}.

Definition C_demo : Catalog :=
  {| QUOTE_API_URL := fun code => Ok ("quote?symbol=" +:+ code);
     EQUITY_STOCK_INDICES_URL := fun code => Ok ("index?index=" +:+ code);
     json_load := fun _ => Ok fno_payload;
     json_load_None := Raise AttributeError;
     json_dumps_list := fun _ => "[]" |}.

(** An index list with a symbol that is not in canonical form. *)
Definition mixed_indices : pyval :=
  VList [VDict (<["indexSymbol" := VStr "NIFTY 50"]> ∅);
         VDict (<["indexSymbol" := VStr "Nifty Midcap"]> ∅)].

Definition mixed_get (k session : nat) (url : string) : result Response :=
  Ok {| json := Ok (VDict (<["data" := mixed_indices]> ∅)) |}.

Definition E_mixed : Env :=
  {| now := fun k => Z.of_nat k * 1000000;
     session_get := mixed_get;
     opener_open := fun _ _ => Ok None;
     json_dumps := fun _ => "{}";
     int_max_str_digits := 4300;
     NSE_HOME := "home";
     TOP_GAINERS_URL := "gainers";
     TOP_LOSERS_URL := "losers";
     ALL_INDICES_URL := "indices" |}.

(** ** Objects, and the equality [==] of records *)


















(** * Properties *)

(** ** The normaliser *)

Section NormalizerFacts.
Variable n : nat.

Lemma cast_str_spec (s : string) :
  default (VStr s) (cast_str n s) = spec_normalize_value n (VStr s).
Proof.
  unfold cast_str; simpl.
  destruct (PyNum.int n s); [reflexivity|].
  destruct (PyNum.float s); reflexivity.
Qed.

(** After the turns for the keys of [m], the keys of [m] hold their
    normalised values and the other keys what they held in [d]. *)
Lemma cast_fold_lookup (d m : gmap string pyval) (k : string) :
  map_fold (fun keys _ acc => cast_step n keys acc) d m !! k =
  match m !! k with
  | Some _ => spec_normalize_value n <$> d !! k
  | None => d !! k
  end.
Proof.
  revert k.
  apply (map_fold_weak_ind
           (fun r m => forall k, r !! k = match m !! k with
                                 | Some _ => spec_normalize_value n <$> d !! k
                                 | None => d !! k
                                 end)).
  - intros k. rewrite lookup_empty. reflexivity.
  - intros i x m' r Hi IH k.
    assert (Hri : r !! i = d !! i) by (rewrite IH, Hi; reflexivity).
    destruct (decide (i = k)) as [->|Hne].
    + rewrite lookup_insert_eq. unfold cast_step. rewrite Hri.
      destruct (d !! k) as [v|]; [|exact Hri].
      destruct v; try exact Hri.
      pose proof (cast_str_spec s) as Hs.
      destruct (cast_str n s) as [v|]; simpl in Hs.
      * rewrite lookup_insert_eq. simpl. congruence.
      * rewrite Hri. simpl. congruence.
    + rewrite (lookup_insert_ne m') by done.
      transitivity (r !! k); [|apply IH].
      unfold cast_step. destruct (r !! i) as [[]|]; try reflexivity.
      destruct (cast_str n s); [|reflexivity].
      rewrite lookup_insert_ne by done. reflexivity.
Qed.

(** The loop of the source computes the normaliser of the design
    document. *)
Lemma cast_dict_spec (d : gmap string pyval) :
  cast_dict n d = spec_normalize n d.
Proof.
  apply map_eq. intros k. unfold cast_dict, spec_normalize.
  rewrite cast_fold_lookup, lookup_fmap.
  destruct (d !! k); reflexivity.
Qed.


Lemma too_many_digits_short (k : nat) :
  (k <= 640)%nat -> PyNum.too_many_digits n k = false.
Proof.
  intros Hk. unfold PyNum.too_many_digits.
  replace (640 <? k)%nat with false by (symmetry; apply Nat.ltb_ge; lia).
  rewrite andb_false_r. reflexivity.
Qed.
End NormalizerFacts.

(** The mantissa and exponent of [float_123_45] are those of the binary64
    number nearest to 123.45: canonical, and within half a unit in the last
    place of 12345/100. *)
Lemma float_123_45_nearest :
  valid_binary PyNum.prec PyNum.emax float_123_45 = true /\
  2 * Z.abs (8687021468732621 * 100 - 12345 * 2 ^ 46) <= 100.
Proof. split; [reflexivity|]. vm_compute. discriminate. Qed.

(** C5: the normaliser applies to every string value the integer parse,
    then the floating-point parse, keeps the string when both fail and
    keeps every value that is not a string; on the record of the design
    document it yields 123.45, the dash as a string, and 1000. *)
Theorem normalize_ordered_attempts (n : nat) (r : gmap string pyval) :
  cast_intfloat_string_values_to_intfloat n (VDict r)
    = Ok (VDict (spec_normalize n r)) /\
  (forall k, spec_normalize n r !! k = spec_normalize_value n <$> r !! k) /\
  cast_intfloat_string_values_to_intfloat n (VDict quote_record)
    = Ok (VDict quote_record_normalized).
Proof.
  split; [|split].
  - simpl. rewrite cast_dict_spec. reflexivity.
  - intros k. unfold spec_normalize. apply lookup_fmap.
  - simpl. rewrite cast_dict_spec. do 2 f_equal.
    unfold spec_normalize, quote_record, quote_record_normalized.
    rewrite !fmap_insert, fmap_empty.
    assert (Hint : forall s, (length (PyNum.drop_underscores
                      (snd (PyNum.split_sign (PyStr.strip_chars PyNum.c_isspace
                         (list_ascii_of_string s))))) <= 640)%nat ->
                   PyNum.int n s = PyNum.int 0 s).
    { intros s Hs. unfold PyNum.int.
      destruct (PyNum.split_sign _) as [neg body]; simpl in Hs.
      rewrite (too_many_digits_short n), (too_many_digits_short 0) by done.
      reflexivity. }
    unfold spec_normalize_value.
    rewrite !Hint by (vm_compute; lia).
    reflexivity.
Qed.


(** *** The normaliser on objects, and [==] *)





Section ObjectFacts.
Variable n : nat.













End ObjectFacts.





(** ** The session *)

Lemma timedelta_seconds_ltb (e i : Z) :
  0 <= e < 86400000000 ->
  (timedelta_seconds e <? i) = (e <? i * 1000000).
Proof.
  intros He. unfold timedelta_seconds. rewrite Z.mod_small by lia.
  destruct (Z.ltb_spec (e / 1000000) i), (Z.ltb_spec e (i * 1000000));
    try reflexivity; exfalso; Z.div_mod_to_equations; lia.
Qed.

Section SessionFacts.
Variable E : Env.

Lemma length_traffic_send (rq : request) (w : World) :
  length (traffic (send rq w)) = S (length (traffic w)).
Proof. simpl. rewrite length_app. simpl. lia. Qed.

(** A call before the expiry: one request on the session at hand. *)
Lemma fetch_fresh (self : Nse) (w : World) (url : string) :
  (timedelta_seconds (now E (clock_reads w) - _session_init_time self)
     <? session_refresh_interval self) = true ->
  fetch E url (self, w)
  = (session_get E (length (traffic w)) (_session self) url,
     (self, send (SessionGet (_session self) url) (tick w))).
Proof.
  intros H. unfold fetch, bind, dt_now, get_self. simpl. rewrite H.
  reflexivity.
Qed.

(** A call after the expiry: a new session, its request for the home
    page, and the request of the caller when the home page came. *)
Lemma fetch_expired (self : Nse) (w : World) (url : string) :
  (timedelta_seconds (now E (clock_reads w) - _session_init_time self)
     <? session_refresh_interval self) = false ->
  fetch E url (self, w)
  = let new := sessions_made w in
    let w1 := send (SessionGet new (NSE_HOME E)) (alloc (tick w)) in
    match session_get E (length (traffic w)) new (NSE_HOME E) with
    | Raise e => (Raise e, (with_session new self, w1))
    | Ok _ =>
        (session_get E (S (length (traffic w))) new url,
         (with_init_time (now E (S (clock_reads w))) (with_session new self),
          send (SessionGet new url) (tick w1)))
    end.
Proof.
  intros H. unfold fetch, bind, dt_now, get_self. simpl. rewrite H.
  unfold create_session, bind, requests_Session, set_session, Session_get,
    dt_now, set_session_init_time. simpl.
  destruct (session_get E (length (traffic w)) (sessions_made w) (NSE_HOME E));
    [|reflexivity].
  simpl. rewrite length_app. simpl.
  replace (length (traffic w) + 1)%nat with (S (length (traffic w))) by lia.
  reflexivity.
Qed.
End SessionFacts.

(** The seconds of an age that is not negative are at most the age: an
    age below the interval is found below it, whatever its days. *)
Lemma timedelta_seconds_young (e i : Z) :
  0 <= e < i * 1000000 -> (timedelta_seconds e <? i) = true.
Proof.
  intros He. apply Z.ltb_lt. unfold timedelta_seconds.
  pose proof (Z.mod_le e 86400000000 ltac:(lia) ltac:(lia)) as Hle.
  apply Z.le_lt_trans with (e / 1000000).
  - apply Z.div_le_mono; lia.
  - apply Z.div_lt_upper_bound; lia.
Qed.

(** An age of at least the interval and less than a day is found at
    least the interval. *)
Lemma timedelta_seconds_old (e i : Z) :
  i * 1000000 <= e < 86400000000 -> (timedelta_seconds e <? i) = false.
Proof.
  intros He. destruct (Z.le_gt_cases 0 e) as [Hpos|Hneg].
  - rewrite timedelta_seconds_ltb by lia. apply Z.ltb_ge. lia.
  - apply Z.ltb_ge. unfold timedelta_seconds.
    pose proof (Z.mod_pos_bound e 86400000000 ltac:(lia)) as Hm.
    apply Z.le_trans with 0; [lia|]. apply Z.div_pos; lia.
Qed.

(** C1, as the code has it: a call made less than the refresh interval
    after the creation of the session sends its request on the session at
    hand and makes none, so that two such calls in a row use the same
    session; a call made at least the refresh interval and less than a day
    after the creation makes exactly one session, a new one, and asks for
    the home page on it: when the home page comes, the creation time is the
    reading of the clock after it and the request of the caller goes out on
    the new session, and when it does not, its exception is raised. *)
Theorem session_reused_until_expiry
  (E : Env) (self : Nse) (w : World) (url1 url2 : string) :
  let created := _session_init_time self in
  let interval := session_refresh_interval self in
  let t1 := now E (clock_reads w) in
  let t2 := now E (S (clock_reads w)) in
  let s1 := (fetch E url1 (self, w)).2 in
  let s2 := (fetch E url2 s1).2 in
  let new := sessions_made w in
  (_session self < sessions_made w)%nat ->
  (0 <= t1 - created < interval * 1000000 ->
     fetch E url1 (self, w)
     = (session_get E (length (traffic w)) (_session self) url1,
        (self, send (SessionGet (_session self) url1) (tick w))) /\
     (0 <= t2 - created < interval * 1000000 ->
        fetch E url2 s1
        = (session_get E (S (length (traffic w))) (_session self) url2,
           (self, send (SessionGet (_session self) url2)
                    (tick (send (SessionGet (_session self) url1) (tick w))))) /\
        _session s2.1 = _session self /\ sessions_made s2.2 = sessions_made w)) /\
  (interval * 1000000 <= t1 - created < 86400000000 ->
     fetch E url1 (self, w)
     = match session_get E (length (traffic w)) new (NSE_HOME E) with
       | Raise e =>
           (Raise e,
            (with_session new self,
             send (SessionGet new (NSE_HOME E)) (alloc (tick w))))
       | Ok _ =>
           (session_get E (S (length (traffic w))) new url1,
            (with_init_time (now E (S (clock_reads w))) (with_session new self),
             send (SessionGet new url1)
               (tick (send (SessionGet new (NSE_HOME E)) (alloc (tick w))))))
       end /\
     sessions_made s1.2 = S (sessions_made w) /\
     _session s1.1 = new /\
     _session s1.1 <> _session self).
Proof.
  intros created interval t1 t2 s1 s2 new Hwf. split.
  - intros Hfresh.
    assert (Hcall : fetch E url1 (self, w)
                    = (session_get E (length (traffic w)) (_session self) url1,
                       (self, send (SessionGet (_session self) url1) (tick w)))).
    { apply fetch_fresh, timedelta_seconds_young. exact Hfresh. }
    split; [exact Hcall|]. intros Hfresh2.
    assert (Hcall2 : fetch E url2 s1
              = (session_get E (S (length (traffic w))) (_session self) url2,
                 (self, send (SessionGet (_session self) url2)
                          (tick (send (SessionGet (_session self) url1) (tick w)))))).
    { unfold s1. rewrite Hcall. cbn [snd]. rewrite fetch_fresh.
      - rewrite length_traffic_send. reflexivity.
      - apply timedelta_seconds_young. exact Hfresh2. }
    split; [exact Hcall2|]. unfold s2. rewrite Hcall2. simpl. done.
  - intros Hold.
    assert (Hcall : fetch E url1 (self, w)
              = match session_get E (length (traffic w)) new (NSE_HOME E) with
                | Raise e =>
                    (Raise e,
                     (with_session new self,
                      send (SessionGet new (NSE_HOME E)) (alloc (tick w))))
                | Ok _ =>
                    (session_get E (S (length (traffic w))) new url1,
                     (with_init_time (now E (S (clock_reads w)))
                        (with_session new self),
                      send (SessionGet new url1)
                        (tick (send (SessionGet new (NSE_HOME E))
                                 (alloc (tick w))))))
                end).
    { apply fetch_expired, timedelta_seconds_old. exact Hold. }
    split; [exact Hcall|]. unfold s1. rewrite Hcall.
    destruct (session_get E (length (traffic w)) new (NSE_HOME E)); simpl;
      (split; [reflexivity|]); (split; [reflexivity|]); unfold new; lia.
Qed.

(** With a session made at 0 s and an interval of 120 s, the calls at 100 s
    and at 130 s are 30 s apart, and the second one makes a new session:
    the expiry is counted from the creation of the session, not from the
    call before. *)
Lemma close_calls_may_straddle_expiry : ~ session_manager_as_stated.
Proof.
  intros [H _].
  specialize (H E_clock (client E_clock).1 (client E_clock).2 "a" "b").
  cbv zeta in H. destruct H as [Hsession _].
  - vm_compute. split; [discriminate|reflexivity].
  - vm_compute in Hsession. discriminate.
Qed.

(** The whole seconds of the difference leave the days out: a session made
    one day and ten seconds ago is taken for ten seconds old and kept. *)
Lemma day_old_session_is_kept : ~ expired_call_bootstraps_once.
Proof.
  intros H.
  specialize (H E_next_day (client E_next_day).1 (client E_next_day).2 "a").
  cbv zeta in H. destruct H as [Hmade _].
  - vm_compute. lia.
  - vm_compute. discriminate.
  - vm_compute in Hmade. discriminate.
Qed.

Lemma session_reused_until_expiry_witness :
  fetch E_clock "a" (client E_clock)
  = (Ok {| json := Ok VNone |},
     ((client E_clock).1,
      send (SessionGet 0 "a") (tick (client E_clock).2))) /\
  fetch E_clock "b" (fetch E_clock "a" (client E_clock)).2
  = (Ok {| json := Ok VNone |},
     (with_init_time 130000000 (with_session 1 (client E_clock).1),
      send (SessionGet 1 "b")
        (tick (send (SessionGet 1 "home")
                 (alloc (tick (fetch E_clock "a" (client E_clock)).2.2)))))).
Proof.
  split.
  - apply (session_reused_until_expiry
             E_clock (client E_clock).1 (client E_clock).2 "a" "b").
    + vm_compute. lia.
    + vm_compute. split; [discriminate|reflexivity].
  - destruct (session_reused_until_expiry
                E_clock (fetch E_clock "a" (client E_clock)).2.1
                (fetch E_clock "a" (client E_clock)).2.2 "b" "c")
      as [_ Hrenew].
    + vm_compute. lia.
    + destruct Hrenew as (Hcall & _).
      * vm_compute. split; [discriminate|reflexivity].
      * etransitivity; [exact Hcall|]. vm_compute. reflexivity.
Defined.

(** ** The reference-data cache *)

Section CacheFacts.
Variable E : Env.

(** Both reference-data methods in one equation: the fetch when the caller
    insists or the lookup finds [None], the cached mapping otherwise. *)
Lemma reference_data_unfold (p : product) (cached as_json : bool)
  (self : Nse) (w : World) :
  reference_data E p cached as_json (self, w) =
  if negb cached || is_None (lookup_CODECACHE self w) then
    match opener_open E (length (traffic w)) "Request(url, None, self.headers)" with
    | Raise e => (Raise e, (self, send opener_request w))
    | Ok None =>
        (Raise (Exception "no response received"),
         (self, send opener_request w))
    | Ok (Some text) =>
        match Res.foldM (parse_line E p) (PyStr.split "010" text) ∅ with
        | Ok d =>
            (Ok (rendering E d as_json),
             (with_CODECACHE d self, send opener_request w))
        | Raise e => (Raise e, (self, send opener_request w))
        end
    end
  else
    match lookup_CODECACHE self w with
    | Some d => (Ok (rendering E d as_json), (self, w))
    | None => (Raise TypeError, (self, w))
    end.
Proof.
  destruct p; simpl;
    unfold get_stock_codes, get_fno_lot_sizes, bind, get_CODECACHE,
      opener_open_, lift, set_CODECACHE, render_response, ret, raise;
    simpl;
    (destruct (negb cached || is_None (lookup_CODECACHE self w));
     [ destruct (opener_open E (length (traffic w)) _) as [[text|]|e];
       [ | reflexivity | reflexivity ];
       match goal with
       | |- context [Res.foldM ?f ?l ?a] => destruct (Res.foldM f l a)
       end; reflexivity
     | destruct (lookup_CODECACHE self w); reflexivity ]).
Qed.

(** A cached call that finds a mapping returns it and changes nothing. *)
Lemma reference_data_cached (p : product) (as_json : bool)
  (self : Nse) (w : World) (d : gmap string pyval) :
  lookup_CODECACHE self w = Some d ->
  reference_data E p true as_json (self, w)
  = (Ok (rendering E d as_json), (self, w)).
Proof.
  intros H. rewrite reference_data_unfold, H. reflexivity.
Qed.

(** A call that returns leaves a mapping in the instance's own entry, and
    nothing in the class. *)
Lemma reference_data_returns (p : product) (cached as_json : bool)
  (self self' : Nse) (w w' : World) (r : rendered) :
  reference_data E p cached as_json (self, w) = (Ok r, (self', w')) ->
  exists d,
    r = rendering E d as_json /\
    lookup_CODECACHE self' w' = Some d /\
    __CODECACHE__ w' = __CODECACHE__ w /\
    ((self', w') = (self, w) /\ lookup_CODECACHE self w = Some d \/
     (self', w') = (with_CODECACHE d self, send opener_request w) /\
     (cached = false \/ lookup_CODECACHE self w = None)).
Proof.
  rewrite reference_data_unfold.
  destruct (negb cached || is_None (lookup_CODECACHE self w))
    eqn:Hgo.
  - destruct (opener_open E _ _) as [[text|]|e]; try discriminate.
    destruct (Res.foldM _ _ _) as [d|e]; try discriminate.
    intros [= <- <- <-]. exists d. repeat split. right. split; [reflexivity|].
    apply orb_true_iff in Hgo as [Hc|Hn].
    + left. destruct cached; [discriminate|reflexivity].
    + right. destruct (lookup_CODECACHE self w); [discriminate|reflexivity].
  - destruct (lookup_CODECACHE self w) as [d|] eqn:Hl; try discriminate.
    intros [= <- <- <-]. exists d. repeat split; [exact Hl|]. left.
    split; reflexivity.
Qed.

(** Any number of cached calls that find a mapping return it and change
    nothing. *)
Lemma cached_calls_cached (calls : list (product * bool))
  (self : Nse) (w : World) (d : gmap string pyval) :
  lookup_CODECACHE self w = Some d ->
  cached_calls E calls (self, w)
  = (Ok (map (fun c => rendering E d c.2) calls), (self, w)).
Proof.
  intros Hd. induction calls as [|[p as_json] rest IH]; [reflexivity|].
  simpl. unfold bind at 1.
  rewrite (reference_data_cached p as_json self w d Hd).
  unfold bind at 1. rewrite IH. reflexivity.
Qed.

(** A fetch that fails propagates its exception and leaves the instance
    as it was. *)
Lemma reference_data_fails (p : product) (cached as_json : bool)
  (self : Nse) (w : World) (e : exn) :
  cached = false \/ lookup_CODECACHE self w = None ->
  fetch_failure (opener_open E (length (traffic w))
                   "Request(url, None, self.headers)") = Some e ->
  reference_data E p cached as_json (self, w)
  = (Raise e, (self, send opener_request w)).
Proof.
  intros Hgo Hfail. rewrite reference_data_unfold.
  replace (negb cached || is_None (lookup_CODECACHE self w))
    with true.
  - destruct (opener_open E _ _) as [[text|]|e']; simpl in Hfail;
      congruence.
  - symmetry. apply orb_true_iff. destruct Hgo as [-> | ->]; [left; reflexivity|].
    right. reflexivity.
Qed.
End CacheFacts.

(** *** The lines of the symbol file *)

Lemma prefix_comma (c : ascii) (s : string) :
  String.prefix "," (String c s) = Ascii.eqb c ",".
Proof.
  change (String.prefix "," (String c s))
    with (if ascii_dec "," c then String.prefix "" s else false).
  destruct (ascii_dec "," c) as [<-|Hne].
  - destruct s; reflexivity.
  - symmetry. apply Ascii.eqb_neq. congruence.
Qed.

Lemma split_not_nil (sep : ascii) (s : string) : PyStr.split sep s <> [].
Proof.
  destruct s as [|c s]; simpl; [discriminate|].
  destruct (Ascii.eqb c sep); [discriminate|].
  destruct (PyStr.split sep s); discriminate.
Qed.

(** A line with a comma has at least two fields. *)
Lemma split_comma_two (line : string) :
  PyStr.contains "," line = true ->
  exists a b rest, PyStr.split "," line = a :: b :: rest.
Proof.
  induction line as [|c s IH]; [discriminate|].
  unfold PyStr.contains; fold PyStr.contains. rewrite prefix_comma.
  change (PyStr.split "," (String c s))
    with (if Ascii.eqb c ","
          then EmptyString :: PyStr.split "," s
          else match PyStr.split "," s with
               | w :: ws => String c w :: ws
               | [] => [String c EmptyString]
               end).
  destruct (Ascii.eqb c ","); simpl.
  - intros _. pose proof (split_not_nil "," s) as Hs.
    destruct (PyStr.split "," s) as [|b rest]; [contradiction|]. eauto.
  - intros Hc. destruct (IH Hc) as (a & b & rest & ->). eauto.
Qed.

(** The loop body of [get_stock_codes] never raises: it adds the entry of
    the line, if the line makes one. *)
Lemma stock_codes_line_entry (line : string) (acc : gmap string pyval) :
  stock_codes_line line acc
  = Ok (match stock_entry line with
        | Some (code, name) => <[code := name]> acc
        | None => acc
        end).
Proof.
  unfold stock_codes_line, stock_entry.
  destruct (String.eqb_spec line "") as [->|Hne]; [reflexivity|]. simpl.
  destruct (PyStr.contains "," line) eqn:Hc; [|reflexivity].
  destruct (split_comma_two line Hc) as (a & b & rest & ->). reflexivity.
Qed.

Lemma foldM_stock_lines (lines : list string) (acc : gmap string pyval) :
  Res.foldM stock_codes_line lines acc
  = Ok (list_to_map (reverse (omap stock_entry lines)) ∪ acc).
Proof.
  revert acc. induction lines as [|line lines IH]; intros acc; simpl.
  - rewrite (left_id_L ∅ (∪)). reflexivity.
  - rewrite stock_codes_line_entry. simpl. rewrite IH. f_equal.
    destruct (stock_entry line) as [[code name]|]; [|reflexivity].
    rewrite reverse_cons, list_to_map_app. simpl.
    rewrite <- (assoc_L (∪)). f_equal.
    rewrite insert_empty, <- insert_union_singleton_l. reflexivity.
Qed.

(** C2, as the code has it: when a cached call of [get_stock_codes]
    returns, the next cached call is served from the cache entry, returns
    the same mapping and issues no request, so that the two calls issue at
    most one; when the fetch of the first call fails, the call raises, the
    entry stays empty and the next cached call issues a request again; and
    a call that is not cached always issues a request. *)
Theorem cached_call_after_return_hits_cache
  (E : Env) (st : Nse * World) (as_json1 as_json2 : bool) :
  (forall r s1,
     get_stock_codes E true as_json1 st = (Ok r, s1) ->
     (exists d,
        r = rendering E d as_json1 /\
        get_stock_codes E true as_json2 s1 = (Ok (rendering E d as_json2), s1)) /\
     (length (traffic s1.2) <= S (length (traffic st.2)))%nat) /\
  (forall e,
     lookup_CODECACHE st.1 st.2 = None ->
     fetch_failure (opener_open E (length (traffic st.2))
                      "Request(url, None, self.headers)") = Some e ->
     get_stock_codes E true as_json1 st
       = (Raise e, (st.1, send opener_request st.2))) /\
  (forall e s1,
     get_stock_codes E true as_json1 st = (Raise e, s1) ->
     lookup_CODECACHE st.1 st.2 = None /\
     fetch_failure (opener_open E (length (traffic st.2))
                      "Request(url, None, self.headers)") = Some e /\
     s1 = (st.1, send opener_request st.2) /\
     lookup_CODECACHE s1.1 s1.2 = None /\
     traffic (get_stock_codes E true as_json2 s1).2.2
     = (traffic st.2 ++ [opener_request; opener_request])%list) /\
  (forall (st' : Nse * World) (as_json : bool),
     traffic (get_stock_codes E false as_json st').2.2
     = (traffic st'.2 ++ [opener_request])%list).
Proof.
  destruct st as [self w].
  assert (Hsends : forall (self' : Nse) (w' : World) (cached as_json : bool),
            cached = false \/ lookup_CODECACHE self' w' = None ->
            traffic (reference_data E SymbolDirectory cached as_json
                       (self', w')).2.2
            = (traffic w' ++ [opener_request])%list).
  { intros self' w' cached as_json Hgo. rewrite reference_data_unfold.
    replace (negb cached || is_None (lookup_CODECACHE self' w')) with true
      by (symmetry; destruct Hgo as [-> | ->]; [reflexivity|apply orb_true_r]).
    destruct (opener_open E _ _) as [[text|]|e]; try reflexivity.
    destruct (Res.foldM _ _ _); reflexivity. }
  split; [|split; [|split]].
  - intros r [self1 w1] Hcall.
    destruct (reference_data_returns E SymbolDirectory _ _ _ _ _ _ _ Hcall)
      as (d & -> & Hl & _ & Hst).
    split.
    + exists d. split; [reflexivity|].
      exact (reference_data_cached E SymbolDirectory as_json2 self1 w1 d Hl).
    + destruct Hst as [[[= -> ->] _] | [[= -> ->] _]]; simpl.
      * lia.
      * rewrite length_app. simpl. lia.
  - intros e Hnone Hfail. simpl in Hnone, Hfail.
    apply (reference_data_fails E SymbolDirectory true as_json1 self w e);
      [right; exact Hnone|exact Hfail].
  - intros e s1.
    change (get_stock_codes E true as_json1)
      with (reference_data E SymbolDirectory true as_json1).
    rewrite reference_data_unfold. simpl.
    destruct (lookup_CODECACHE self w) as [d|] eqn:Hl; [discriminate|]. simpl.
    assert (Hnext : traffic (get_stock_codes E true as_json2
                               (self, send opener_request w)).2.2
                    = (traffic w ++ [opener_request; opener_request])%list).
    { change (get_stock_codes E true as_json2)
        with (reference_data E SymbolDirectory true as_json2).
      rewrite Hsends by (right; exact Hl). simpl.
      rewrite <- app_assoc. reflexivity. }
    destruct (opener_open E _ _) as [[text|]|e0].
    + simpl. rewrite foldM_stock_lines. discriminate.
    + intros [= <- <-]. repeat split; [exact Hl|exact Hnext].
    + intros [= <- <-]. repeat split; [exact Hl|exact Hnext].
  - intros [self' w'] as_json.
    exact (Hsends self' w' false as_json (or_introl eq_refl)).
Qed.

(** When the server cannot be reached the cache stays empty, and each of
    two cached calls issues its own request. *)
Lemma failed_calls_fetch_twice : ~ symbol_directory_as_stated.
Proof.
  intros [H _].
  specialize (H E_down (client E_down) false false).
  vm_compute in H. lia.
Qed.

Lemma cached_call_after_return_hits_cache_witness :
  (exists d,
     Native demo_directory = rendering E_demo d false /\
     get_stock_codes E_demo true true
       (get_stock_codes E_demo true false (client E_demo)).2
     = (Ok (rendering E_demo d true),
        (get_stock_codes E_demo true false (client E_demo)).2)) /\
  traffic (get_stock_codes E_down true true
             (get_stock_codes E_down true false (client E_down)).2).2.2
  = (traffic (client E_down).2 ++ [opener_request; opener_request])%list.
Proof.
  split.
  - apply (proj1 (cached_call_after_return_hits_cache
                    E_demo (client E_demo) false true)
             (Native demo_directory)
             (get_stock_codes E_demo true false (client E_demo)).2).
    vm_compute. reflexivity.
  - apply (proj1 (proj2 (proj2 (cached_call_after_return_hits_cache
                                  E_down (client E_down) false true)))
             (TransportError "URLError")
             (get_stock_codes E_down true false (client E_down)).2).
    vm_compute. reflexivity.
Defined.

(** C4: a fetch of reference data that fails, by an exception of the
    opener or by a missing response, raises that exception and leaves the
    instance and its cache entry as they were; a mapping cached before is
    what every later cached call returns, however many there are. *)
Theorem failed_fetch_keeps_cache
  (E : Env) (p : product) (cached as_json : bool) (self : Nse) (w : World)
  (e : exn) :
  cached = false \/ lookup_CODECACHE self w = None ->
  fetch_failure (opener_open E (length (traffic w))
                   "Request(url, None, self.headers)") = Some e ->
  let s1 := (self, send opener_request w) in
  reference_data E p cached as_json (self, w) = (Raise e, s1) /\
  lookup_CODECACHE s1.1 s1.2 = lookup_CODECACHE self w /\
  (forall d, lookup_CODECACHE self w = Some d ->
     forall calls : list (product * bool),
       cached_calls E calls s1
       = (Ok (map (fun c => rendering E d c.2) calls), s1)).
Proof.
  intros Hgo Hfail s1. split; [|split].
  - apply reference_data_fails; assumption.
  - reflexivity.
  - intros d Hd calls. apply cached_calls_cached. exact Hd.
Qed.

Lemma failed_fetch_keeps_cache_witness :
  reference_data E_flaky SymbolDirectory false false (cached_client E_flaky)
  = (Raise (TransportError "URLError"),
     ((cached_client E_flaky).1, send opener_request (cached_client E_flaky).2)) /\
  cached_calls E_flaky [(SymbolDirectory, false); (SymbolDirectory, false)]
    ((cached_client E_flaky).1, send opener_request (cached_client E_flaky).2)
  = (Ok [Native demo_directory; Native demo_directory],
     ((cached_client E_flaky).1, send opener_request (cached_client E_flaky).2)).
Proof.
  destruct (failed_fetch_keeps_cache E_flaky SymbolDirectory false false
              (cached_client E_flaky).1 (cached_client E_flaky).2
              (TransportError "URLError"))
    as (Hraise & _ & Hstale).
  - left. reflexivity.
  - vm_compute. reflexivity.
  - split; [exact Hraise|].
    apply (Hstale demo_directory); vm_compute; reflexivity.
Defined.

(** C3, on the code: once [get_stock_codes] has filled the entry, a cached
    call of [get_fno_lot_sizes] issues no request and returns the symbol
    directory, both methods reading the one attribute [__CODECACHE__]; the
    call that is not cached fetches the lot sizes. *)
Theorem lot_sizes_served_the_symbol_directory :
  (get_stock_codes E_products true false (client E_products)).1
  = Ok (Native demo_directory) /\
  get_fno_lot_sizes E_products true false (cached_client E_products)
  = (Ok (Native demo_directory), cached_client E_products) /\
  (get_fno_lot_sizes E_products false false (cached_client E_products)).1
  = Ok (Native demo_lot_sizes).
Proof. repeat split; vm_compute; reflexivity. Qed.

(** The same for every state and both orders of the two products: a
    cached call returns whatever mapping either product left. *)
Lemma cached_call_ignores_product (E : Env) (p p' : product)
  (cached as_json as_json' : bool) (st s1 : Nse * World) (r : rendered) :
  reference_data E p cached as_json st = (Ok r, s1) ->
  exists d, r = rendering E d as_json /\
            reference_data E p' true as_json' s1
            = (Ok (rendering E d as_json'), s1).
Proof.
  destruct st as [self w], s1 as [self1 w1]. intros Hcall.
  destruct (reference_data_returns E _ _ _ _ _ _ _ _ Hcall)
    as (d & -> & Hl & _).
  exists d. split; [reflexivity|]. apply reference_data_cached. exact Hl.
Qed.

(** C9, as the code has it: a fetch by one instance stores the mapping
    in that instance's own attribute and leaves the attribute of the class
    as it was; the instance is served from its entry afterwards, and
    another instance without an entry of its own issues its own request. *)
Theorem cache_is_per_instance
  (E : Env) (a a' : Nse) (w w' : World) (r : rendered) :
  get_stock_codes E true false (a, w) = (Ok r, (a', w')) ->
  traffic w' = (traffic w ++ [opener_request])%list ->
  __CODECACHE__ w' = __CODECACHE__ w /\
  __CODECACHE__ w = None /\
  (exists d, dict_CODECACHE a' = Some d /\
     forall as_json, get_stock_codes E true as_json (a', w')
                     = (Ok (rendering E d as_json), (a', w'))) /\
  (forall (b : Nse) (as_json : bool),
     dict_CODECACHE b = None ->
     traffic (get_stock_codes E true as_json (b, w')).2.2
     = (traffic w' ++ [opener_request])%list).
Proof.
  intros Hcall Htraffic.
  destruct (reference_data_returns E SymbolDirectory _ _ _ _ _ _ _ Hcall)
    as (d & -> & Hl & Hcls & Hst).
  destruct Hst as [[[= -> ->] _] | [[= -> ->] Hgo]].
  { exfalso. apply (f_equal length) in Htraffic.
    rewrite length_app in Htraffic. simpl in Htraffic. lia. }
  destruct Hgo as [|Hnone]; [discriminate|].
  assert (Hclass : __CODECACHE__ w = None).
  { unfold lookup_CODECACHE in Hnone. destruct (dict_CODECACHE a); congruence. }
  split; [reflexivity|]. split; [exact Hclass|]. split.
  - exists d. split; [reflexivity|]. intros as_json.
    exact (reference_data_cached E SymbolDirectory as_json _ _ d Hl).
  - intros b as_json Hb.
    change (get_stock_codes E true as_json)
      with (reference_data E SymbolDirectory true as_json).
    rewrite reference_data_unfold.
    assert (Hlb : lookup_CODECACHE b (send opener_request w) = None).
    { unfold lookup_CODECACHE. rewrite Hb. exact Hclass. }
    rewrite Hlb. simpl.
    destruct (opener_open E _ _) as [[text|]|e]; try reflexivity.
    destruct (Res.foldM _ _ _); reflexivity.
Qed.

(** Of two instances, the second fetches the directory again after the
    first has fetched it. *)
Lemma second_instance_fetches_again : ~ cache_shared_across_instances.
Proof.
  intros H.
  pose (a := (two_clients E_demo).1.1).
  pose (b := (two_clients E_demo).1.2).
  pose (w := (two_clients E_demo).2).
  pose (s := (get_stock_codes E_demo true false (a, w)).2).
  specialize (H E_demo a b s.1 w s.2 (Native demo_directory) false).
  assert (Hlen : length (traffic (get_stock_codes E_demo true false (b, s.2)).2.2)
                 = length (traffic s.2)) by (rewrite H; [reflexivity| |]; vm_compute; reflexivity).
  vm_compute in Hlen. discriminate.
Qed.

Lemma cache_is_per_instance_witness :
  __CODECACHE__ (get_stock_codes E_demo true false (client E_demo)).2.2 = None.
Proof.
  destruct (cache_is_per_instance E_demo (client E_demo).1
              (get_stock_codes E_demo true false (client E_demo)).2.1
              (client E_demo).2
              (get_stock_codes E_demo true false (client E_demo)).2.2
              (Native demo_directory)) as (Heq & Hnone & _).
  - vm_compute. reflexivity.
  - vm_compute. reflexivity.
  - rewrite Heq. exact Hnone.
Defined.

(** ** The queries *)

(** C7, on the code: for the empty string the body of [is_valid_code]
    falls off its end, and the method returns [None], not [False],
    whatever the directory holds. *)
Theorem is_valid_code_empty_is_None (E : Env) (st : Nse * World) :
  is_valid_code E "" st = (Ok None, st).
Proof. reflexivity. Qed.

(** For a string that is not empty the method answers whether its upper
    case is a key of the directory. *)
Lemma is_valid_code_nonempty (E : Env) (code : string) (st s1 : Nse * World)
  (d : gmap string pyval) :
  code <> "" ->
  get_stock_codes E true false st = (Ok (Native d), s1) ->
  is_valid_code E code st
  = (Ok (Some (bool_decide (PyStr.upper code ∈ dom d))), s1).
Proof.
  intros Hne Hdir. unfold is_valid_code.
  destruct (String.eqb_spec code ""); [contradiction|]. simpl.
  unfold bind. rewrite Hdir.
  destruct (bool_decide (PyStr.upper code ∈ dom d)); reflexivity.
Qed.

Lemma existsb_eq_str (code : string) (symbols : list pyval) :
  VStr code ∉ symbols -> existsb (fun x => eq_str x code) symbols = false.
Proof.
  induction symbols as [|x l IH]; [reflexivity|].
  intros Hnot. simpl. rewrite IH.
  - rewrite orb_false_r. destruct x; try reflexivity. simpl.
    destruct (String.eqb_spec s code) as [->|]; [|reflexivity].
    exfalso. apply Hnot. left.
  - intros Hin. apply Hnot. right. exact Hin.
Qed.

(** The state [get_all_index_quote] leaves is the one its single call of
    [fetch] leaves. *)
Lemma get_all_index_quote_state (E : Env) (st : Nse * World) :
  (get_all_index_quote E st).2 = (fetch E (ALL_INDICES_URL E) st).2.
Proof.
  unfold get_all_index_quote, bind, lift.
  destruct (fetch E (ALL_INDICES_URL E) st) as [[resp|e] s1]; [|reflexivity].
  destruct (json resp) as [body|e]; [|reflexivity].
  reflexivity.
Qed.

(** C8: when the code, in upper case and with its white space collapsed,
    is not among the symbols of the index list that was fetched,
    [get_index_quote] raises [Exception('Wrong index code')], which is not
    an exception of the transport, and the state is the one the fetch of
    the list left: no further request and no further session; with a live
    session that is one request on the session at hand. *)
Theorem unknown_index_code_is_rejected
  (E : Env) (code : string) (st s1 : Nse * World) (q : pyval)
  (symbols : list pyval) :
  get_all_index_quote E st = (Ok q, s1) ->
  index_symbols q = Ok symbols ->
  VStr (normalize_code code) ∉ symbols ->
  get_index_quote E code st = (Raise (Exception "Wrong index code"), s1) /\
  is_transport_error (Exception "Wrong index code") = false /\
  s1 = (fetch E (ALL_INDICES_URL E) st).2 /\
  ((timedelta_seconds (now E (clock_reads st.2) - _session_init_time st.1)
      <? session_refresh_interval st.1) = true ->
   s1 = (st.1, send (SessionGet (_session st.1) (ALL_INDICES_URL E)) (tick st.2))).
Proof.
  intros Hall Hsym Hnot.
  assert (Hs1 : s1 = (fetch E (ALL_INDICES_URL E) st).2).
  { rewrite <- get_all_index_quote_state, Hall. reflexivity. }
  split; [|split; [reflexivity|split; [exact Hs1|]]].
  - unfold get_index_quote, bind. rewrite Hall. unfold lift. rewrite Hsym.
    rewrite existsb_eq_str by exact Hnot. reflexivity.
  - intros Hlive. rewrite Hs1. destruct st as [self w].
    rewrite fetch_fresh by exact Hlive. reflexivity.
Qed.

Lemma unknown_index_code_is_rejected_witness :
  get_index_quote E_demo "NOT-A-REAL-INDEX" (client E_demo)
  = (Raise (Exception "Wrong index code"),
     (get_all_index_quote E_demo (client E_demo)).2).
Proof.
  apply (unknown_index_code_is_rejected E_demo "NOT-A-REAL-INDEX"
           (client E_demo) (get_all_index_quote E_demo (client E_demo)).2
           (VList [nifty_quote]) [VStr "NIFTY 50"]).
  - vm_compute. reflexivity.
  - vm_compute. reflexivity.
  - intros Hin. apply list_elem_of_In in Hin. simpl in Hin.
    destruct Hin as [Heq|[]]. vm_compute in Heq. discriminate.
Defined.

(** C10: with a selector, the gainers and the losers queries return the
    [data] entry of the selector's entry of the decoded payload as it is;
    without one they return the payload passed through the normaliser. *)
Theorem selector_returns_data_verbatim
  (E : Env) (q : movers) (index : string) (st s1 : Nse * World)
  (resp : Response) (payload : pyval) :
  fetch E (movers_url E q) st = (Ok resp, s1) ->
  json resp = Ok payload ->
  get_top E q (Some index) st
  = (Res.bind (subscript payload index) (fun sel => subscript sel "data"), s1) /\
  get_top E q None st = (cast E payload, s1) /\
  (forall (p sel : gmap string pyval) (data : pyval),
     payload = VDict p -> p !! index = Some (VDict sel) ->
     sel !! "data" = Some data ->
     get_top E q (Some index) st = (Ok data, s1)).
Proof.
  intros Hfetch Hjson.
  assert (Hsel : get_top E q (Some index) st
                 = (Res.bind (subscript payload index)
                      (fun sel => subscript sel "data"), s1)).
  { destruct q; simpl in *; unfold get_top_gainers, get_top_losers, bind;
      rewrite Hfetch; unfold lift; rewrite Hjson;
      destruct (subscript payload index); reflexivity. }
  split; [exact Hsel|]. split.
  - destruct q; simpl in *; unfold get_top_gainers, get_top_losers, bind;
      rewrite Hfetch; unfold lift; rewrite Hjson; reflexivity.
  - intros p sel data -> Hp Hdata. rewrite Hsel. simpl. rewrite Hp. simpl.
    rewrite Hdata. reflexivity.
Qed.

Lemma selector_returns_data_verbatim_witness :
  get_top E_demo Gainers (Some "NIFTY") (client E_demo)
  = (Ok nifty_movers, (fetch E_demo "gainers" (client E_demo)).2).
Proof.
  destruct (selector_returns_data_verbatim E_demo Gainers "NIFTY"
              (client E_demo) (fetch E_demo "gainers" (client E_demo)).2
              {| json := Ok (VDict movers_payload) |} (VDict movers_payload))
    as (_ & _ & Hdata).
  - vm_compute. reflexivity.
  - reflexivity.
  - apply (Hdata movers_payload
             (<["data" := nifty_movers]> ∅) nifty_movers).
    + reflexivity.
    + vm_compute. reflexivity.
    + vm_compute. reflexivity.
Defined.

(** * Further properties of the code *)

(** ** The session, beyond one call *)

Lemma timedelta_seconds_range (us : Z) : 0 <= timedelta_seconds us < 86400.
Proof.
  unfold timedelta_seconds.
  pose proof (Z.mod_pos_bound us 86400000000 ltac:(lia)) as Hm.
  split.
  - apply Z.div_pos; lia.
  - apply Z.div_lt_upper_bound; lia.
Qed.

(** [fetch] by cases on [expired]. *)
Lemma fetch_cases (E : Env) (self : Nse) (w : World) (url : string) :
  fetch E url (self, w)
  = if expired E (self, w) then
      let new := sessions_made w in
      let w1 := send (SessionGet new (NSE_HOME E)) (alloc (tick w)) in
      match session_get E (length (traffic w)) new (NSE_HOME E) with
      | Raise e => (Raise e, (with_session new self, w1))
      | Ok _ =>
          (session_get E (S (length (traffic w))) new url,
           (with_init_time (now E (S (clock_reads w))) (with_session new self),
            send (SessionGet new url) (tick w1)))
      end
    else (session_get E (length (traffic w)) (_session self) url,
          (self, send (SessionGet (_session self) url) (tick w))).
Proof.
  unfold expired. simpl.
  destruct (timedelta_seconds _ <? _) eqn:Hlive; simpl.
  - apply fetch_fresh. exact Hlive.
  - apply fetch_expired. exact Hlive.
Qed.

(** X1: the session an instance holds is always one that has been made:
    the constructor makes it so, even when it raises, and [fetch] keeps it
    so; [fetch] never goes back to an earlier session, and the session
    changes exactly when a session is made. *)
Theorem fetch_keeps_session_made (E : Env) (st : Nse * World) (url : string) :
  session_made st ->
  session_made (fetch E url st).2 /\
  (_session st.1 <= _session (fetch E url st).2.1)%nat /\
  (sessions_made st.2 <= sessions_made (fetch E url st).2.2)%nat /\
  (_session (fetch E url st).2.1 = _session st.1 <->
   sessions_made (fetch E url st).2.2 = sessions_made st.2) /\
  (forall (interval : Z) (w : World), session_made (init E interval w).2).
Proof.
  destruct st as [self w]. unfold session_made. simpl. intros Hmade.
  rewrite fetch_cases. split; [|split; [|split; [|split]]].
  - destruct (expired E (self, w)); simpl; [|exact Hmade].
    destruct (session_get E _ _ _); simpl; lia.
  - destruct (expired E (self, w)); simpl; [|lia].
    destruct (session_get E _ _ _); simpl; lia.
  - destruct (expired E (self, w)); simpl; [|lia].
    destruct (session_get E _ _ _); simpl; lia.
  - destruct (expired E (self, w)); simpl; [|tauto].
    destruct (session_get E _ _ _); simpl; lia.
  - intros interval w0. unfold init, create_session, bind, requests_Session,
      set_session, Session_get, dt_now, set_session_init_time. simpl.
    destruct (session_get E _ _ _); simpl; lia.
Qed.

Lemma fetch_keeps_session_made_witness :
  session_made (fetch E_clock "b" (fetch E_clock "a" (client E_clock)).2).2.
Proof.
  apply (fetch_keeps_session_made E_clock
           (fetch E_clock "a" (client E_clock)).2 "b").
  vm_compute. lia.
Defined.

(** [fetch] leaves the cache alone: the entry of the instance, the
    attribute of the class and the refresh interval are after a call what
    they were before, whatever the outcome. *)
Lemma fetch_leaves_cache (E : Env) (st : Nse * World) (url : string) :
  dict_CODECACHE (fetch E url st).2.1 = dict_CODECACHE st.1 /\
  __CODECACHE__ (fetch E url st).2.2 = __CODECACHE__ st.2 /\
  session_refresh_interval (fetch E url st).2.1 = session_refresh_interval st.1.
Proof.
  destruct st as [self w]. rewrite fetch_cases.
  destruct (expired E (self, w)); simpl; [|done].
  destruct (session_get E _ _ _); simpl; done.
Qed.

(** X3: a refresh interval of a day or more is never reached, the seconds
    of a time difference being below 86400: [fetch] then uses the session
    at hand at every reading of the clock; and with an interval of zero or
    less every call makes a session. *)
Theorem interval_extremes (E : Env) (self : Nse) (w : World) (url : string) :
  (86400 <= session_refresh_interval self ->
   fetch E url (self, w)
   = (session_get E (length (traffic w)) (_session self) url,
      (self, send (SessionGet (_session self) url) (tick w)))) /\
  (session_refresh_interval self <= 0 ->
   sessions_made (fetch E url (self, w)).2.2 = S (sessions_made w) /\
   _session (fetch E url (self, w)).2.1 = sessions_made w).
Proof.
  pose proof (timedelta_seconds_range
                (now E (clock_reads w) - _session_init_time self)) as Hr.
  split; intros Hi; rewrite fetch_cases; unfold expired; simpl.
  - replace (timedelta_seconds _ <? _) with true
      by (symmetry; apply Z.ltb_lt; lia).
    reflexivity.
  - replace (timedelta_seconds _ <? _) with false
      by (symmetry; apply Z.ltb_ge; lia).
    simpl. destruct (session_get E _ _ _); simpl; done.
Qed.

Lemma interval_extremes_witness :
  _session (fetch E_next_day "a" (client_with 86400)).2.1 = 0%nat /\
  _session (fetch E_next_day "a" (client_with 0)).2.1 = 1%nat.
Proof.
  split.
  - destruct (interval_extremes E_next_day (client_with 86400).1
                (client_with 86400).2 "a") as [Hkeep _].
    change ((client_with 86400).1, (client_with 86400).2)
      with (client_with 86400) in Hkeep.
    rewrite Hkeep; [reflexivity|]. vm_compute. discriminate.
  - apply (proj2 (interval_extremes E_next_day (client_with 0).1
                    (client_with 0).2 "a")).
    vm_compute. discriminate.
Defined.

(** X4: when the request for the home page fails in a renewal, [fetch]
    raises that exception without sending the request of the caller; the
    instance is left with the new session and the old creation time, so
    that the next call, if it still finds the session expired, makes
    another session. *)
Theorem failed_renewal_is_retried
  (E : Env) (self : Nse) (w : World) (url url' : string) (e : exn) :
  expired E (self, w) = true ->
  session_get E (length (traffic w)) (sessions_made w) (NSE_HOME E) = Raise e ->
  let st' := (with_session (sessions_made w) self,
              send (SessionGet (sessions_made w) (NSE_HOME E)) (alloc (tick w))) in
  fetch E url (self, w) = (Raise e, st') /\
  _session_init_time st'.1 = _session_init_time self /\
  (expired E st' = true ->
   _session (fetch E url' st').2.1 = S (sessions_made w) /\
   sessions_made (fetch E url' st').2.2 = S (S (sessions_made w))).
Proof.
  intros Hexp Hhome st'. split; [|split; [reflexivity|]].
  - rewrite fetch_cases, Hexp. simpl. rewrite Hhome. reflexivity.
  - intros Hexp'. unfold st' in *. rewrite fetch_cases, Hexp'. simpl.
    destruct (session_get E (length _) (S (sessions_made w)) (NSE_HOME E));
      simpl; done.
Qed.

Lemma failed_renewal_is_retried_witness :
  fetch E_home_down "quote" (client_with 120)
  = (Raise (TransportError "ConnectionError"),
     (with_session 1 (client_with 120).1,
      send (SessionGet 1 "home") (alloc (tick (client_with 120).2)))).
Proof.
  apply (failed_renewal_is_retried E_home_down (client_with 120).1
           (client_with 120).2 "quote" "quote"
           (TransportError "ConnectionError")).
  - vm_compute. reflexivity.
  - vm_compute. reflexivity.
Defined.

Lemma fetch_all_app (E : Env) (urls urls' : list string) (st : Nse * World) :
  fetch_all E (urls ++ urls')%list st = fetch_all E urls' (fetch_all E urls st).
Proof. unfold fetch_all. apply foldl_app. Qed.

(** X5: any number of calls of [fetch], each made when the clock reads
    less than the refresh interval (and less than a day) after the creation
    of the session, go out on the one session at hand, one request each,
    and no session is made. *)
Theorem fetches_before_expiry_share_session
  (E : Env) (self : Nse) (w : World) (urls : list string) :
  (forall i, (i < length urls)%nat ->
     0 <= now E (clock_reads w + i) - _session_init_time self
       < 86400000000 /\
     now E (clock_reads w + i) - _session_init_time self
       < session_refresh_interval self * 1000000) ->
  fetch_all E urls (self, w)
  = (self, after_requests (map (SessionGet (_session self)) urls) w).
Proof.
  revert w. induction urls as [|url urls IH]; intros w Hclock.
  - unfold fetch_all, after_requests. simpl.
    rewrite Nat.add_0_r, app_nil_r. destruct w; reflexivity.
  - change (fetch_all E (url :: urls) (self, w))
      with (fetch_all E urls (fetch E url (self, w)).2).
    destruct (Hclock 0%nat ltac:(simpl; lia)) as [Hday Hlive].
    rewrite Nat.add_0_r in Hday, Hlive.
    rewrite fetch_fresh.
    + cbn [snd]. rewrite IH.
      * unfold after_requests. simpl. f_equal. f_equal.
        -- lia.
        -- rewrite <- app_assoc. reflexivity.
      * intros i Hi.
        replace (clock_reads (send (SessionGet (_session self) url) (tick w)) + i)%nat
          with (clock_reads w + S i)%nat by (simpl; lia).
        apply Hclock. simpl. lia.
    + rewrite timedelta_seconds_ltb by exact Hday. apply Z.ltb_lt. exact Hlive.
Qed.

Lemma fetches_before_expiry_share_session_witness :
  fetch_all E_demo ["a"; "b"; "c"] (client E_demo)
  = ((client E_demo).1,
     after_requests [SessionGet 0 "a"; SessionGet 0 "b"; SessionGet 0 "c"]
       (client E_demo).2).
Proof.
  apply (fetches_before_expiry_share_session E_demo (client E_demo).1
           (client E_demo).2 ["a"; "b"; "c"]).
  intros i Hi. simpl in Hi.
  destruct i as [|[|[|i]]]; [vm_compute; repeat split; discriminate ..|lia].
Defined.

(** ** The reference data, entry by entry *)

Lemma stock_entry_value (line code : string) (v : pyval) :
  stock_entry line = Some (code, v) -> exists name, v = VStr name.
Proof.
  unfold stock_entry. destruct (PyStr.contains "," line); [|discriminate].
  destruct (PyStr.split "," line) as [|a [|b rest]]; try discriminate.
  intros [= <- <-]. eauto.
Qed.

(** X6: whatever text the server sends, [get_stock_codes] reads it without
    raising and stores the mapping of the entries of its lines, one for
    each line with a comma (the heading included), a later line replacing
    an earlier one for the same code; the values are strings. *)
Theorem stock_directory_of_text
  (E : Env) (cached as_json : bool) (self : Nse) (w : World) (text : string) :
  cached = false \/ lookup_CODECACHE self w = None ->
  opener_open E (length (traffic w)) "Request(url, None, self.headers)"
    = Ok (Some text) ->
  let d : gmap string pyval := list_to_map (reverse (stock_entries text)) in
  get_stock_codes E cached as_json (self, w)
    = (Ok (rendering E d as_json),
       (with_CODECACHE d self, send opener_request w)) /\
  (forall code, code ∈ dom d <->
     exists line v, line ∈ PyStr.split "010" text /\
                    stock_entry line = Some (code, v)) /\
  (forall pre line post code v,
     PyStr.split "010" text = (pre ++ line :: post)%list ->
     stock_entry line = Some (code, v) ->
     (forall l v', l ∈ post -> stock_entry l <> Some (code, v')) ->
     d !! code = Some v) /\
  (forall code v, d !! code = Some v -> exists name, v = VStr name).
Proof.
  intros Hgo Hopen d.
  assert (Hin : forall code v, (code, v) ∈ stock_entries text <->
            exists line, line ∈ PyStr.split "010" text /\
                         stock_entry line = Some (code, v)).
  { intros code v. unfold stock_entries. rewrite list_elem_of_omap. reflexivity. }
  split; [|split; [|split]].
  - change (get_stock_codes E cached as_json)
      with (reference_data E SymbolDirectory cached as_json).
    rewrite reference_data_unfold.
    replace (negb cached || is_None (lookup_CODECACHE self w)) with true
      by (symmetry; destruct Hgo as [-> | ->]; [reflexivity|apply orb_true_r]).
    rewrite Hopen. simpl. rewrite foldM_stock_lines.
    rewrite (right_id_L ∅ (∪)). reflexivity.
  - intros code. unfold d. rewrite dom_list_to_map_L, elem_of_list_to_set.
    rewrite list_elem_of_fmap. split.
    + intros ([c v] & -> & Hcv). rewrite elem_of_reverse in Hcv.
      apply Hin in Hcv as (line & Hline & Hentry). eauto.
    + intros (line & v & Hline & Hentry). exists (code, v). split; [done|].
      rewrite elem_of_reverse. apply Hin. eauto.
  - intros pre line post code v Hsplit Hentry Hpost. unfold d, stock_entries.
    rewrite Hsplit, omap_app. simpl. rewrite Hentry.
    rewrite reverse_app, reverse_cons, <- app_assoc, list_to_map_app.
    apply lookup_union_Some_raw. right. split.
    + apply not_elem_of_list_to_map_1. rewrite list_elem_of_fmap.
      intros ([c v'] & Hc & Hcv). simpl in Hc. subst c.
      rewrite elem_of_reverse, list_elem_of_omap in Hcv.
      destruct Hcv as (l & Hl & Hlv). exact (Hpost l v' Hl Hlv).
    + simpl. apply lookup_insert_eq.
  - intros code v Hd. unfold d in Hd.
    apply elem_of_list_to_map_2 in Hd. rewrite elem_of_reverse in Hd.
    apply Hin in Hd as (line & _ & Hentry).
    exact (stock_entry_value line code v Hentry).
Qed.

Lemma stock_directory_of_text_witness :
  (get_stock_codes E_override false false (client E_override)).1
  = Ok (Native (<["SYMBOL" := VStr "NAME"]>
                  (<["INFY" := VStr "Infosys Limited"]> ∅))).
Proof.
  destruct (stock_directory_of_text E_override false false
              (client E_override).1 (client E_override).2 override_csv)
    as (Hcall & _).
  - left. reflexivity.
  - reflexivity.
  - change ((client E_override).1, (client E_override).2)
      with (client E_override) in Hcall.
    rewrite Hcall. vm_compute. reflexivity.
Defined.


Lemma foldM_invariant {A B} (P : B -> Prop) (f : A -> B -> result B)
  (l : list A) :
  (forall a acc acc', a ∈ l -> P acc -> f a acc = Ok acc' -> P acc') ->
  forall acc r, P acc -> Res.foldM f l acc = Ok r -> P r.
Proof.
  induction l as [|a l IH]; intros Hstep acc r Hacc; simpl.
  - intros [= <-]. exact Hacc.
  - destruct (f a acc) as [acc'|e] eqn:Hf; simpl; [|discriminate].
    apply IH.
    + intros a' acc1 acc2 Ha'. apply Hstep. right. exact Ha'.
    + apply (Hstep a acc acc'); [left|exact Hacc|exact Hf].
Qed.

Lemma foldM_raise {A B} (P : exn -> Prop) (f : A -> B -> result B)
  (l : list A) :
  (forall a acc e, f a acc = Raise e -> P e) ->
  forall acc e, Res.foldM f l acc = Raise e -> P e.
Proof.
  intros Hstep. induction l as [|a l IH]; intros acc e; simpl; [discriminate|].
  destruct (f a acc) as [acc'|e'] eqn:Hf; simpl.
  - apply IH.
  - intros [= <-]. exact (Hstep a acc e' Hf).
Qed.

(** The loop body of [get_fno_lot_sizes]: a line that is not read changes
    nothing; a line that is read adds its second field, stripped, with the
    integer its third field, stripped, stands for, and raises [ValueError]
    when there is no third field or when it is no integer. *)
Lemma fno_lot_sizes_line_cases (E : Env) (line : string)
  (acc : gmap string pyval) :
  fno_lot_sizes_line E line acc
  = if lot_size_line_read line then
      match PyStr.split "," line with
      | _ :: code :: name :: _ =>
          match PyNum.int (int_max_str_digits E) (PyStr.strip name) with
          | Some z => Ok (<[PyStr.strip code := VInt z]> acc)
          | None => Raise ValueError
          end
      | _ => Raise ValueError
      end
    else Ok acc.
Proof.
  unfold fno_lot_sizes_line, lot_size_line_read.
  destruct (String.eqb_spec line "") as [->|Hne]; [reflexivity|]. simpl.
  destruct (PyStr.contains "," line && _); [|reflexivity].
  destruct (PyStr.split "," line) as [|f0 [|code [|name rest]]]; reflexivity.
Qed.

(** X7: however a call for reference data ends in an exception, the
    instance is what it was and one request has gone out.  For the symbol
    directory the exception is the one of the opener or of the missing
    response; for the lot sizes it may also be the [ValueError] of a line
    without a lot or with a lot that is no integer, in which case nothing
    of the file is kept. *)
Theorem reference_data_raise_keeps_instance
  (E : Env) (p : product) (cached as_json : bool) (self : Nse) (w : World)
  (e : exn) (st' : Nse * World) :
  reference_data E p cached as_json (self, w) = (Raise e, st') ->
  st' = (self, send opener_request w) /\
  (fetch_failure (opener_open E (length (traffic w))
                    "Request(url, None, self.headers)") = Some e \/
   p = LotSizes /\ e = ValueError /\
   exists text, opener_open E (length (traffic w))
                  "Request(url, None, self.headers)" = Ok (Some text)).
Proof.
  rewrite reference_data_unfold.
  destruct (negb cached || is_None (lookup_CODECACHE self w)) eqn:Hgo.
  - destruct (opener_open E _ _) as [[text|]|e0] eqn:Hopen.
    + destruct (Res.foldM _ _ _) as [d|e0] eqn:Hfold; [discriminate|].
      intros [= <- <-]. split; [reflexivity|]. right.
      destruct p.
      * simpl in Hfold. rewrite foldM_stock_lines in Hfold. discriminate.
      * split; [reflexivity|]. split; [|eauto].
        revert Hfold. apply (foldM_raise (fun e => e = ValueError)).
        intros line acc e1. simpl.
        rewrite fno_lot_sizes_line_cases.
        destruct (lot_size_line_read line); [|discriminate].
        destruct (PyStr.split "," line) as [|f0 [|code [|name rest]]];
          try (intros [= <-]; reflexivity).
        destruct (PyNum.int _ _); [discriminate|]. intros [= <-]. reflexivity.
    + intros [= <- <-]. split; [reflexivity|]. left. reflexivity.
    + intros [= <- <-]. split; [reflexivity|]. left. reflexivity.
  - destruct (lookup_CODECACHE self w); [discriminate|].
    apply orb_false_iff in Hgo as [_ Hnone]. discriminate.
Qed.

Lemma reference_data_raise_keeps_instance_witness :
  (reference_data E_broken_lots LotSizes false false
     (cached_client E_broken_lots)).2
  = ((cached_client E_broken_lots).1,
     send opener_request (cached_client E_broken_lots).2).
Proof.
  apply (reference_data_raise_keeps_instance E_broken_lots LotSizes false false
           (cached_client E_broken_lots).1 (cached_client E_broken_lots).2
           ValueError).
  vm_compute. reflexivity.
Defined.

(** X8: the mapping a fetch of the lot sizes returns and stores holds
    integers only, each of them read from a line of the text that has a
    comma and not the word [symbol]: the key is the second field and the
    value the third, both stripped of white space. *)
Theorem lot_sizes_of_text
  (E : Env) (as_json : bool) (self self' : Nse) (w w' : World) (r : rendered) :
  get_fno_lot_sizes E false as_json (self, w) = (Ok r, (self', w')) ->
  exists (d : gmap string pyval) (text : string),
    r = rendering E d as_json /\
    dict_CODECACHE self' = Some d /\
    opener_open E (length (traffic w)) "Request(url, None, self.headers)"
      = Ok (Some text) /\
    forall code v, d !! code = Some v ->
      exists z line f0 c n rest,
        v = VInt z /\
        line ∈ PyStr.split "010" text /\
        lot_size_line_read line = true /\
        PyStr.split "," line = f0 :: c :: n :: rest /\
        code = PyStr.strip c /\
        PyNum.int (int_max_str_digits E) (PyStr.strip n) = Some z.
Proof.
  change (get_fno_lot_sizes E false as_json)
    with (reference_data E LotSizes false as_json).
  rewrite reference_data_unfold. simpl.
  destruct (opener_open E _ _) as [[text|]|e0] eqn:Hopen; try discriminate.
  destruct (Res.foldM _ _ _) as [d|e0] eqn:Hfold; [|discriminate].
  intros [= <- <- <-]. exists d, text. repeat split.
  revert Hfold.
  apply (foldM_invariant
           (fun acc : gmap string pyval => forall code v, acc !! code = Some v ->
              exists z line f0 c n rest,
                v = VInt z /\
                line ∈ PyStr.split "010" text /\
                lot_size_line_read line = true /\
                PyStr.split "," line = f0 :: c :: n :: rest /\
                code = PyStr.strip c /\
                PyNum.int (int_max_str_digits E) (PyStr.strip n) = Some z)).
  - intros line acc acc' Hline Hacc. rewrite fno_lot_sizes_line_cases.
    destruct (lot_size_line_read line) eqn:Hread;
      [|intros [= <-]; exact Hacc].
    destruct (PyStr.split "," line) as [|f0 [|c [|n rest]]] eqn:Hsplit;
      try discriminate.
    destruct (PyNum.int _ _) as [z|] eqn:Hint; [|discriminate].
    intros [= <-] code v.
    destruct (decide (PyStr.strip c = code)) as [<-|Hne].
    + rewrite lookup_insert_eq. intros [= <-].
      exists z, line, f0, c, n, rest. repeat split; assumption.
    + rewrite lookup_insert_ne by exact Hne. apply Hacc.
  - intros code v. rewrite lookup_empty. discriminate.
Qed.

Lemma lot_sizes_of_text_witness :
  exists (d : gmap string pyval) (text : string),
    Native demo_lot_sizes = rendering E_products d false /\
    dict_CODECACHE
      (get_fno_lot_sizes E_products false false (cached_client E_products)).2.1
    = Some d /\
    opener_open E_products (length (traffic (cached_client E_products).2))
      "Request(url, None, self.headers)" = Ok (Some text) /\
    forall code v, d !! code = Some v ->
      exists z line f0 c n rest,
        v = VInt z /\
        line ∈ PyStr.split "010" text /\
        lot_size_line_read line = true /\
        PyStr.split "," line = f0 :: c :: n :: rest /\
        code = PyStr.strip c /\
        PyNum.int (int_max_str_digits E_products) (PyStr.strip n) = Some z.
Proof.
  apply (lot_sizes_of_text E_products false
           (cached_client E_products).1
           (get_fno_lot_sizes E_products false false
              (cached_client E_products)).2.1
           (cached_client E_products).2
           (get_fno_lot_sizes E_products false false
              (cached_client E_products)).2.2
           (Native demo_lot_sizes)).
  vm_compute. reflexivity.
Defined.


(** X9: the reference-data methods do not go through [fetch]: whatever
    they return or raise, they read no clock, make no session, leave the
    session, its creation time and the attribute of the class as they were,
    and send at most one request, through the opener and never on the
    session. *)
Theorem reference_data_bypasses_session
  (E : Env) (p : product) (cached as_json : bool) (self : Nse) (w : World) :
  let st' := (reference_data E p cached as_json (self, w)).2 in
  clock_reads st'.2 = clock_reads w /\
  sessions_made st'.2 = sessions_made w /\
  _session st'.1 = _session self /\
  _session_init_time st'.1 = _session_init_time self /\
  session_refresh_interval st'.1 = session_refresh_interval self /\
  __CODECACHE__ st'.2 = __CODECACHE__ w /\
  (traffic st'.2 = traffic w \/
   traffic st'.2 = (traffic w ++ [opener_request])%list).
Proof.
  simpl. rewrite reference_data_unfold.
  destruct (negb cached || is_None (lookup_CODECACHE self w)).
  - destruct (opener_open E _ _) as [[text|]|e0]; simpl;
      [destruct (Res.foldM _ _ _); simpl| |]; repeat split; right; reflexivity.
  - destruct (lookup_CODECACHE self w); simpl; repeat split; left; reflexivity.
Qed.

Lemma upper_char_idem (c : ascii) :
  PyStr.upper_char (PyStr.upper_char c) = PyStr.upper_char c.
Proof. destruct c as [[] [] [] [] [] [] [] []]; reflexivity. Qed.

Lemma upper_idem (s : string) : PyStr.upper (PyStr.upper s) = PyStr.upper s.
Proof.
  induction s as [|c s IH]; [reflexivity|]. simpl.
  rewrite upper_char_idem, IH. reflexivity.
Qed.

Lemma upper_eqb_empty (s : string) :
  String.eqb (PyStr.upper s) "" = String.eqb s "".
Proof. destruct s; reflexivity. Qed.

(** The upper case of a string of code points below 128 is such a
    string. *)
Lemma upper_char_isascii (c : ascii) :
  (PyStr.ord (PyStr.upper_char c) <? 128)%N = (PyStr.ord c <? 128)%N.
Proof. destruct c as [[] [] [] [] [] [] [] []]; reflexivity. Qed.

Lemma isascii_upper (s : string) :
  PyStr.isascii (PyStr.upper s) = PyStr.isascii s.
Proof.
  unfold PyStr.isascii. induction s as [|c s IH]; [reflexivity|].
  cbn [PyStr.upper list_ascii_of_string forallb].
  rewrite upper_char_isascii, IH. reflexivity.
Qed.

(** X10: for a code of code points below 128, whose upper case the model
    has as Python does, [is_valid_code] does not look at the letter case
    of the code: it answers for a code as for its upper case, which is
    again such a code.  It calls [get_stock_codes] once when the code is
    not empty and does nothing when it is, so that with a directory in the
    cache it sends no request. *)
Theorem is_valid_code_ignores_case (E : Env) (code : string) (st : Nse * World) :
  PyStr.isascii code = true ->
  PyStr.isascii (PyStr.upper code) = true /\
  is_valid_code E (PyStr.upper code) st = is_valid_code E code st /\
  (is_valid_code E code st).2
  = (if String.eqb code "" then st else (get_stock_codes E true false st).2) /\
  (forall d, code <> "" -> lookup_CODECACHE st.1 st.2 = Some d ->
     is_valid_code E code st
     = (Ok (Some (bool_decide (PyStr.upper code ∈ dom d))), st)).
Proof.
  intros Hascii. split; [rewrite isascii_upper; exact Hascii|].
  split; [|split].
  - unfold is_valid_code. rewrite upper_eqb_empty, upper_idem. reflexivity.
  - unfold is_valid_code. destruct (String.eqb code ""); [reflexivity|].
    simpl. unfold bind.
    destruct (get_stock_codes E true false st) as [[[d|text]|e] s1];
      try reflexivity.
    destruct (bool_decide _); reflexivity.
  - intros d Hne Hd. destruct st as [self w].
    apply (is_valid_code_nonempty E code (self, w) (self, w) d Hne).
    exact (reference_data_cached E SymbolDirectory false self w d Hd).
Qed.

Lemma is_valid_code_ignores_case_witness :
  PyStr.isascii "infy" = true /\
  is_valid_code E_demo "INFY" (cached_client E_demo)
  = is_valid_code E_demo "infy" (cached_client E_demo).
Proof.
  split; [reflexivity|].
  exact (proj1 (proj2 (is_valid_code_ignores_case
                         E_demo "infy" (cached_client E_demo) eq_refl))).
Defined.


(** ** The normaliser, value by value *)

(** X11: the normaliser neither adds nor removes a field, and a string
    left in its result is a string of the record that neither [int] nor
    [float] accepts. *)
Theorem normalize_normal_form (n : nat) (d : gmap string pyval) :
  dom (cast_dict n d) = dom d /\
  (forall k s, cast_dict n d !! k = Some (VStr s) ->
     d !! k = Some (VStr s) /\
     PyNum.int n s = None /\ PyNum.float s = None).
Proof.
  rewrite cast_dict_spec. unfold spec_normalize. split.
  - apply dom_fmap_L.
  - intros k s. rewrite lookup_fmap.
    destruct (d !! k) as [v|]; [|discriminate]. simpl.
    destruct v; try discriminate. simpl.
    destruct (PyNum.int n s0) eqn:Hi; [discriminate|].
    destruct (PyNum.float s0) eqn:Hf; [discriminate|].
    intros [= <-]. auto.
Qed.

Section NumeralCharacters.
Let P (c : ascii) : Prop := numeric_char c = true.

Lemma numeric_space (c : ascii) : PyNum.c_isspace c = true -> P c.
Proof. unfold P, numeric_char. intros ->. reflexivity. Qed.

Lemma numeric_digit (c : ascii) : PyStr.isdigit c = true -> P c.
Proof. unfold P, numeric_char. intros ->. rewrite orb_true_r. reflexivity. Qed.

Lemma numeric_underscore (c : ascii) : PyNum.is_underscore c = true -> P c.
Proof.
  unfold P, numeric_char. intros ->. rewrite !orb_true_r. reflexivity.
Qed.

Lemma numeric_letter (c : ascii) :
  existsb (Ascii.eqb (PyStr.lower_char c)) (list_ascii_of_string "infinitynan")
    = true -> P c.
Proof. unfold P, numeric_char. intros ->. apply orb_true_r. Qed.

Lemma lstrip_Forall (blank : ascii -> bool) (l : list ascii) :
  (forall c, blank c = true -> P c) ->
  Forall P (PyStr.lstrip_chars blank l) -> Forall P l.
Proof.
  intros Hb. induction l as [|c l IH]; simpl; [done|].
  destruct (blank c) eqn:Hc; [|done].
  intros H. constructor; [apply Hb, Hc|apply IH, H].
Qed.

Lemma strip_Forall (blank : ascii -> bool) (l : list ascii) :
  (forall c, blank c = true -> P c) ->
  Forall P (PyStr.strip_chars blank l) -> Forall P l.
Proof.
  intros Hb H. unfold PyStr.strip_chars in H.
  apply (lstrip_Forall blank _ Hb).
  apply Forall_rev in H. rewrite rev_involutive in H.
  apply (lstrip_Forall blank _ Hb) in H.
  apply Forall_rev in H. rewrite rev_involutive in H. exact H.
Qed.

Lemma drop_underscores_Forall (l : list ascii) :
  Forall P (PyNum.drop_underscores l) -> Forall P l.
Proof.
  unfold PyNum.drop_underscores. induction l as [|c l IH]; simpl; [done|].
  destruct (PyNum.is_underscore c) eqn:Hc; simpl.
  - intros H. constructor; [apply numeric_underscore, Hc|apply IH, H].
  - intros H. apply Forall_cons in H as [Hc' H].
    constructor; [exact Hc'|apply IH, H].
Qed.

Lemma split_sign_Forall (l r : list ascii) (neg : bool) :
  PyNum.split_sign l = (neg, r) -> Forall P r -> Forall P l.
Proof.
  unfold PyNum.split_sign. destruct l as [|c l]; [intros [= <- <-]; done|].
  destruct (decide (c = "-"%char)) as [->|Hm]; [intros [= <- <-]; intros H;
    constructor; [reflexivity|exact H]|].
  destruct (decide (c = "+"%char)) as [->|Hp]; [intros [= <- <-]; intros H;
    constructor; [reflexivity|exact H]|].
  destruct c as [[] [] [] [] [] [] [] []]; try (intros [= <- <-]; done);
    congruence.
Qed.

Lemma all_digits_Forall (l : list ascii) :
  PyNum.all_digits l = true -> Forall P l.
Proof.
  unfold PyNum.all_digits. rewrite forallb_forall, Forall_forall.
  intros H c Hc. apply numeric_digit, H, list_elem_of_In, Hc.
Qed.

Lemma span_digits_spec (l ds r : list ascii) :
  PyNum.span_digits l = (ds, r) ->
  l = (ds ++ r)%list /\ PyNum.all_digits ds = true.
Proof.
  revert ds r. induction l as [|c l IH]; intros ds r; simpl.
  - intros [= <- <-]. done.
  - destruct (PyStr.isdigit c) eqn:Hc; [|intros [= <- <-]; done].
    destruct (PyNum.span_digits l) as [ds' r'].
    intros [= <- <-]. destruct (IH ds' r' eq_refl) as [-> Hd].
    split; [reflexivity|]. simpl. rewrite Hc. exact Hd.
Qed.

Lemma parse_exponent_Forall (l : list ascii) (e : Z) :
  PyNum.parse_exponent l = Some e -> Forall P l.
Proof.
  unfold PyNum.parse_exponent. destruct l as [|c t]; [done|].
  destruct (Ascii.eqb c "e" || Ascii.eqb c "E") eqn:Hc; [|discriminate].
  destruct (PyNum.split_sign t) as [eneg ds] eqn:Hs.
  destruct ds as [|d ds]; [discriminate|].
  destruct (PyNum.all_digits (d :: ds)) eqn:Hd; [|discriminate].
  intros _. constructor.
  - apply orb_true_iff in Hc as [Hc|Hc]; apply Ascii.eqb_eq in Hc; subst c;
      reflexivity.
  - apply (split_sign_Forall t (d :: ds) eneg Hs), all_digits_Forall, Hd.
Qed.

Lemma chars_eqb_eq (a b : list ascii) : PyNum.chars_eqb a b = true -> a = b.
Proof.
  unfold PyNum.chars_eqb. intros H. apply String.eqb_eq in H.
  apply (f_equal list_ascii_of_string) in H.
  rewrite !list_ascii_of_string_of_list_ascii in H. exact H.
Qed.

Lemma lower_letters_Forall (r word : list ascii) :
  map PyStr.lower_char r = word ->
  forallb (fun c => existsb (Ascii.eqb c) (list_ascii_of_string "infinitynan"))
    word = true ->
  Forall P r.
Proof.
  intros <- Hall. rewrite forallb_forall in Hall. apply Forall_forall.
  intros c Hc. apply numeric_letter, Hall, in_map, list_elem_of_In, Hc.
Qed.

Lemma parse_decimal_Forall (neg : bool) (r : list ascii) (f : spec_float) :
  PyNum.parse_decimal neg r = Some f -> Forall P r.
Proof.
  unfold PyNum.parse_decimal.
  destruct (PyNum.span_digits r) as [ip r1] eqn:Hip.
  apply span_digits_spec in Hip as [-> Hipd].
  destruct r1 as [|c t].
  - intros _. rewrite app_nil_r. apply all_digits_Forall, Hipd.
  - destruct (decide (c = "."%char)) as [->|Hne].
    + destruct (PyNum.span_digits t) as [fp r2] eqn:Hfp.
      apply span_digits_spec in Hfp as [-> Hfpd].
      destruct (ip ++ fp)%list; [discriminate|].
      destruct (PyNum.parse_exponent r2) as [e|] eqn:He; [|discriminate].
      intros _. apply Forall_app. split; [apply all_digits_Forall, Hipd|].
      constructor; [reflexivity|]. apply Forall_app.
      split; [apply all_digits_Forall, Hfpd|exact (parse_exponent_Forall r2 e He)].
    + assert (Hshape :
        (let '(fp, r2) := match (c :: t) with
                          | "."%char :: t' => PyNum.span_digits t'
                          | _ => ([], c :: t)
                          end in
         match (ip ++ fp)%list with
         | [] => None
         | ds => match PyNum.parse_exponent r2 with
                 | Some e => Some (PyNum.decimal_to_float neg (PyNum.digits_val ds)
                                     (e - Z.of_nat (length fp)))
                 | None => None
                 end
         end)
        = match (ip ++ [])%list with
          | [] => None
          | ds => match PyNum.parse_exponent (c :: t) with
                  | Some e => Some (PyNum.decimal_to_float neg (PyNum.digits_val ds)
                                      (e - Z.of_nat (length (@nil ascii))))
                  | None => None
                  end
          end).
      { destruct c as [[] [] [] [] [] [] [] []]; try reflexivity. congruence. }
      rewrite Hshape. destruct (ip ++ [])%list; [discriminate|].
      destruct (PyNum.parse_exponent (c :: t)) as [e|] eqn:He; [|discriminate].
      intros _. apply Forall_app. split; [apply all_digits_Forall, Hipd|].
      exact (parse_exponent_Forall (c :: t) e He).
Qed.

Lemma parse_float_Forall (l : list ascii) (f : spec_float) :
  PyNum.parse_float l = Some f -> Forall P l.
Proof.
  unfold PyNum.parse_float. destruct (PyNum.split_sign l) as [neg r] eqn:Hs.
  intros H. apply (split_sign_Forall l r neg Hs). revert H.
  destruct (PyNum.chars_eqb (map PyStr.lower_char r)
              (list_ascii_of_string "inf")) eqn:Hinf;
    [intros _; apply chars_eqb_eq in Hinf;
     apply (lower_letters_Forall r _ Hinf); reflexivity|].
  destruct (PyNum.chars_eqb (map PyStr.lower_char r)
              (list_ascii_of_string "infinity")) eqn:Hinfinity;
    [intros _; apply chars_eqb_eq in Hinfinity;
     apply (lower_letters_Forall r _ Hinfinity); reflexivity|].
  destruct (PyNum.chars_eqb (map PyStr.lower_char r)
              (list_ascii_of_string "nan")) eqn:Hnan;
    [intros _; apply chars_eqb_eq in Hnan;
     apply (lower_letters_Forall r _ Hnan); reflexivity|].
  simpl. apply parse_decimal_Forall.
Qed.

(** [float] accepts a string of numeral characters only. *)
Lemma float_numeric_chars (s : string) (f : spec_float) :
  PyNum.float s = Some f -> Forall P (list_ascii_of_string s).
Proof.
  unfold PyNum.float.
  destruct (PyNum.underscores_ok None _); [|discriminate].
  intros H. apply (strip_Forall PyNum.c_isspace _ numeric_space).
  apply drop_underscores_Forall. exact (parse_float_Forall _ f H).
Qed.

(** [int] accepts a string of numeral characters only. *)
Lemma int_numeric_chars (n : nat) (s : string) (z : Z) :
  PyNum.int n s = Some z -> Forall P (list_ascii_of_string s).
Proof.
  unfold PyNum.int.
  destruct (PyNum.split_sign _) as [neg body] eqn:Hs.
  destruct (PyNum.underscores_ok None body); [|discriminate].
  destruct (PyNum.drop_underscores body) as [|d ds] eqn:Hd; [discriminate|].
  destruct (PyNum.all_digits (d :: ds)) eqn:Hall; [|discriminate].
  intros _. apply (strip_Forall PyNum.c_isspace _ numeric_space).
  apply (split_sign_Forall _ body neg Hs), drop_underscores_Forall.
  rewrite Hd. apply all_digits_Forall, Hall.
Qed.
End NumeralCharacters.

(** X12: a string of code points below 128 that holds a character other
    than the white space [int] and [float] skip in such a string, a digit,
    a sign, an underscore, a point, an exponent letter or a letter of
    [inf], [infinity] and [nan] is accepted neither by [int] nor by
    [float], and the normaliser leaves it as it is: numbers grouped with
    commas, times and percentages stay strings. *)
Theorem non_numeric_string_stays
  (n : nat) (d : gmap string pyval) (k s : string) (c : ascii) :
  PyStr.isascii s = true ->
  d !! k = Some (VStr s) ->
  c ∈ list_ascii_of_string s ->
  numeric_char c = false ->
  PyNum.int n s = None /\ PyNum.float s = None /\
  cast_dict n d !! k = Some (VStr s).
Proof.
  intros _ Hk Hc Hnum.
  assert (Hint : PyNum.int n s = None).
  { destruct (PyNum.int n s) as [z|] eqn:Hi; [|reflexivity].
    apply int_numeric_chars in Hi. rewrite Forall_forall in Hi.
    specialize (Hi c Hc). congruence. }
  assert (Hfloat : PyNum.float s = None).
  { destruct (PyNum.float s) as [f|] eqn:Hf; [|reflexivity].
    apply float_numeric_chars in Hf. rewrite Forall_forall in Hf.
    specialize (Hf c Hc). congruence. }
  split; [exact Hint|]. split; [exact Hfloat|].
  rewrite cast_dict_spec. unfold spec_normalize.
  rewrite lookup_fmap, Hk. simpl. rewrite Hint, Hfloat. reflexivity.
Qed.

Lemma non_numeric_string_stays_witness :
  cast_dict 4300 grouped_record !! "lot" = Some (VStr "1,000").
Proof.
  apply (non_numeric_string_stays 4300 grouped_record "lot" "1,000" ","%char).
  - reflexivity.
  - reflexivity.
  - apply list_elem_of_In. simpl. auto.
  - reflexivity.
Defined.


(** ** The queries, beyond the claims *)

Lemma lift_state {A} (r : result A) (st : Nse * World) : (lift r st).2 = st.
Proof. reflexivity. Qed.

(** X2: each query is one call of [fetch], whatever it returns or
    raises afterwards: the state it leaves is the state that call leaves, so
    that it sends one request, or two when the session is renewed, and
    leaves the cache of the instance and of the class as they were. *)
Theorem queries_fetch_once (E : Env) (st : Nse * World) :
  (forall q index,
     (get_top E q index st).2 = (fetch E (movers_url E q) st).2) /\
  (forall code,
     (get_index_quote E code st).2 = (fetch E (ALL_INDICES_URL E) st).2) /\
  (get_index_list E st).2 = (fetch E (ALL_INDICES_URL E) st).2 /\
  (forall url,
     lookup_CODECACHE (fetch E url st).2.1 (fetch E url st).2.2
     = lookup_CODECACHE st.1 st.2 /\
     (length (traffic st.2) < length (traffic (fetch E url st).2.2)
        <= length (traffic st.2) + 2)%nat).
Proof.
  split; [|split; [|split]].
  - intros q index.
    destruct q; simpl; unfold get_top_gainers, get_top_losers, bind;
      (destruct (fetch E _ st) as [[resp|e] s1]; [|reflexivity]);
      unfold lift; (destruct (json resp) as [payload|e]; [|reflexivity]);
      (destruct index as [index|]; [|reflexivity]);
      destruct (subscript payload index); reflexivity.
  - intros code. unfold get_index_quote, bind.
    pose proof (get_all_index_quote_state E st) as Hall.
    destruct (get_all_index_quote E st) as [[q|e] s1]; simpl in Hall;
      [|exact Hall].
    unfold lift. destruct (index_symbols q) as [symbols|e]; [|exact Hall].
    destruct (existsb _ symbols); [|exact Hall].
    destruct (py_iter q) as [items|e]; [|exact Hall].
    destruct (filter_symbol _ items) as [[|response found]|e]; exact Hall.
  - unfold get_index_list, bind.
    pose proof (get_all_index_quote_state E st) as Hall.
    destruct (get_all_index_quote E st) as [[q|e] s1]; simpl in Hall;
      exact Hall.
  - intros url. destruct (fetch_leaves_cache E st url) as (Hd & Hc & _).
    split; [unfold lookup_CODECACHE; rewrite Hd, Hc; reflexivity|].
    destruct st as [self w]. rewrite fetch_cases.
    destruct (expired E (self, w)); simpl.
    + destruct (session_get E _ _ _); simpl; rewrite !length_app; simpl; lia.
    + rewrite length_app. simpl. lia.
Qed.

Lemma cast_list_head (n : nat) (x : pyval) (l : list pyval) :
  is_index x = false -> cast_list n (x :: l) = Raise TypeError.
Proof. intros Hx. destruct x; try discriminate; reflexivity. Qed.

(** X13: the normaliser is made for a mapping.  On a list whose first
    item is no integer it raises [TypeError], on a value that is neither a
    mapping nor a list it raises [AttributeError], and the empty list comes
    back as it is; so the gainers and losers queries without a selector
    raise [TypeError] on a payload that is an array of records, after the
    request has gone out. *)
Theorem normalize_wants_a_mapping
  (E : Env) (q : movers) (st s1 : Nse * World) (resp : Response)
  (x : pyval) (l : list pyval) :
  fetch E (movers_url E q) st = (Ok resp, s1) ->
  json resp = Ok (VList (x :: l)) ->
  is_index x = false ->
  get_top E q None st = (Raise TypeError, s1) /\
  cast E (VList []) = Ok (VList []) /\
  (forall v, match v with
             | VDict _ | VList _ => True
             | _ => cast E v = Raise AttributeError
             end).
Proof.
  intros Hfetch Hjson Hx. split; [|split].
  - destruct q; simpl in *; unfold get_top_gainers, get_top_losers, bind;
      rewrite Hfetch; unfold lift; rewrite Hjson; unfold cast; simpl;
      rewrite (cast_list_head _ x l Hx); reflexivity.
  - reflexivity.
  - intros []; done.
Qed.

Lemma normalize_wants_a_mapping_witness :
  get_top E_array Gainers None (client E_array)
  = (Raise TypeError, (fetch E_array "gainers" (client E_array)).2).
Proof.
  apply (normalize_wants_a_mapping E_array Gainers (client E_array)
           (fetch E_array "gainers" (client E_array)).2
           {| json := Ok (VList [nifty_quote]) |} nifty_quote []).
  - vm_compute. reflexivity.
  - reflexivity.
  - reflexivity.
Defined.


Lemma eq_str_true (v : pyval) (code : string) :
  eq_str v code = true <-> v = VStr code.
Proof.
  destruct v; simpl; try (split; [discriminate|intros [=]]).
  rewrite String.eqb_eq. split; [intros ->; reflexivity|intros [= ->]; reflexivity].
Qed.

Lemma existsb_eq_str_true (code : string) (symbols : list pyval) :
  VStr code ∈ symbols -> existsb (fun x => eq_str x code) symbols = true.
Proof.
  intros Hin. apply existsb_exists. exists (VStr code).
  split; [apply list_elem_of_In, Hin|]. apply eq_str_true. reflexivity.
Qed.

(** Where the symbols of the items hold the code, the filter of
    [get_index_quote] begins with the first item that has it. *)
Lemma filter_symbol_first (code : string) (items symbols : list pyval) :
  Res.mapM (fun i => subscript i "indexSymbol") items = Ok symbols ->
  (exists found, filter_symbol code items = Ok found) /\
  (VStr code ∈ symbols ->
   exists pre item post found,
     items = (pre ++ item :: post)%list /\
     subscript item "indexSymbol" = Ok (VStr code) /\
     Forall (fun x => subscript x "indexSymbol" <> Ok (VStr code)) pre /\
     filter_symbol code items = Ok (item :: found)).
Proof.
  revert symbols. induction items as [|a items IH]; intros symbols; simpl.
  - intros [= <-]. split; [eauto|]. intros Hin. inversion Hin.
  - destruct (subscript a "indexSymbol") as [sym|e] eqn:Ha; [|discriminate].
    simpl. destruct (Res.mapM _ items) as [syms|e] eqn:Hm; [|discriminate].
    simpl. intros [= <-].
    destruct (IH syms eq_refl) as [[found Hfound] Hfirst].
    rewrite Hfound. simpl. split; [eauto|]. intros Hin.
    destruct (eq_str sym code) eqn:Hsym.
    + apply eq_str_true in Hsym. subst sym.
      exists [], a, items, found. repeat split; [exact Ha|constructor].
    + apply elem_of_cons in Hin as [Heq|Hin].
      { subst sym. simpl in Hsym. rewrite String.eqb_refl in Hsym.
        discriminate. }
      destruct (Hfirst Hin) as (pre & item & post & found' & -> & Hitem & Hpre & Hf).
      exists (a :: pre), item, post, found'.
      repeat split; [exact Hitem| |congruence].
      constructor; [|exact Hpre]. rewrite Ha. intros [= ->].
      simpl in Hsym. rewrite String.eqb_refl in Hsym. discriminate.
Qed.

(** X14: when the code, in upper case and with its white space collapsed,
    is the symbol of an item of the index list that was fetched,
    [get_index_quote] returns the first such item, normalised, and the
    state is the one the fetch of the list left. *)
Theorem index_quote_is_first_match
  (E : Env) (code : string) (st s1 : Nse * World)
  (items symbols : list pyval) :
  get_all_index_quote E st = (Ok (VList items), s1) ->
  index_symbols (VList items) = Ok symbols ->
  VStr (normalize_code code) ∈ symbols ->
  exists pre m post,
    items = (pre ++ VDict m :: post)%list /\
    m !! "indexSymbol" = Some (VStr (normalize_code code)) /\
    Forall (fun x => subscript x "indexSymbol"
                     <> Ok (VStr (normalize_code code))) pre /\
    get_index_quote E code st
    = (Ok (VDict (spec_normalize (int_max_str_digits E) m)), s1).
Proof.
  intros Hall Hsym Hin.
  destruct (filter_symbol_first (normalize_code code) items symbols Hsym)
    as [_ Hfirst].
  destruct (Hfirst Hin) as (pre & item & post & found & Hitems & Hitem & Hpre & Hf).
  destruct item; try discriminate. simpl in Hitem.
  destruct (d !! "indexSymbol") as [sym|] eqn:Hd; [|discriminate].
  injection Hitem as ->.
  exists pre, d, post. repeat split; [exact Hitems|exact Hd|exact Hpre|].
  unfold get_index_quote, bind. rewrite Hall. unfold lift.
  rewrite Hsym, (existsb_eq_str_true _ _ Hin). simpl. rewrite Hf.
  unfold cast. simpl. rewrite cast_dict_spec. reflexivity.
Qed.

Lemma index_quote_is_first_match_witness :
  exists pre m post,
    [nifty_quote] = (pre ++ VDict m :: post)%list /\
    m !! "indexSymbol" = Some (VStr (normalize_code " nifty   50 ")) /\
    Forall (fun x => subscript x "indexSymbol"
                     <> Ok (VStr (normalize_code " nifty   50 "))) pre /\
    get_index_quote E_demo " nifty   50 " (client E_demo)
    = (Ok (VDict (spec_normalize (int_max_str_digits E_demo) m)),
       (get_all_index_quote E_demo (client E_demo)).2).
Proof.
  apply (index_quote_is_first_match E_demo " nifty   50 " (client E_demo)
           (get_all_index_quote E_demo (client E_demo)).2
           [nifty_quote] [VStr "NIFTY 50"]).
  - vm_compute. reflexivity.
  - vm_compute. reflexivity.
  - left.
Defined.

(** X15: with a selector, the gainers and losers queries raise
    [KeyError] naming the selector when the payload has no such entry,
    [KeyError] naming [data] when the entry has no [data], and [TypeError]
    when the entry is no mapping; the exception of [json()] is raised
    through, with or without a selector.  In each case the request has gone
    out and nothing else is done. *)
Theorem selector_errors
  (E : Env) (q : movers) (index : string) (st s1 : Nse * World)
  (resp : Response) :
  fetch E (movers_url E q) st = (Ok resp, s1) ->
  (forall e, json resp = Raise e ->
     forall selector, get_top E q selector st = (Raise e, s1)) /\
  (forall p, json resp = Ok (VDict p) ->
     match p !! index with
     | None => get_top E q (Some index) st = (Raise (KeyError index), s1)
     | Some (VDict sel) =>
         sel !! "data" = None ->
         get_top E q (Some index) st = (Raise (KeyError "data"), s1)
     | Some _ => get_top E q (Some index) st = (Raise TypeError, s1)
     end).
Proof.
  intros Hfetch. split.
  - intros e Hjson selector.
    destruct q; simpl in *; unfold get_top_gainers, get_top_losers, bind;
      rewrite Hfetch; unfold lift; rewrite Hjson; reflexivity.
  - intros p Hjson.
    assert (Hsel : get_top E q (Some index) st
                   = (Res.bind (subscript (VDict p) index)
                        (fun sel => subscript sel "data"), s1)).
    { destruct q; simpl in *; unfold get_top_gainers, get_top_losers, bind;
        rewrite Hfetch; unfold lift; rewrite Hjson; simpl;
        destruct (p !! index); reflexivity. }
    rewrite Hsel. simpl. destruct (p !! index) as [v|]; [|reflexivity].
    destruct v; try reflexivity. simpl. intros ->. reflexivity.
Qed.

Lemma selector_errors_witness :
  get_top E_demo Losers (Some "BANKNIFTY") (client E_demo)
  = (Raise (KeyError "BANKNIFTY"), (fetch E_demo "losers" (client E_demo)).2).
Proof.
  destruct (selector_errors E_demo Losers "BANKNIFTY" (client E_demo)
              (fetch E_demo "losers" (client E_demo)).2
              {| json := Ok (VDict movers_payload) |}) as [_ Hkey].
  - vm_compute. reflexivity.
  - exact (Hkey movers_payload eq_refl).
Defined.


(** ** The canonical form of a code *)

Lemma isspace_upper_char (c : ascii) :
  PyStr.isspace (PyStr.upper_char c) = PyStr.isspace c.
Proof. destruct c as [[] [] [] [] [] [] [] []]; reflexivity. Qed.

Lemma upper_of_list (l : list ascii) :
  PyStr.upper (string_of_list_ascii l)
  = string_of_list_ascii (map PyStr.upper_char l).
Proof. induction l as [|c l IH]; simpl; [reflexivity|]. rewrite IH. reflexivity. Qed.

Lemma list_of_upper (s : string) :
  list_ascii_of_string (PyStr.upper s)
  = map PyStr.upper_char (list_ascii_of_string s).
Proof. induction s as [|c s IH]; simpl; [reflexivity|]. rewrite IH. reflexivity. Qed.

Lemma upper_append (a b : string) :
  PyStr.upper (a +:+ b) = PyStr.upper a +:+ PyStr.upper b.
Proof. induction a as [|c a IH]; simpl; [reflexivity|]. rewrite IH. reflexivity. Qed.

Lemma list_of_append (a b : string) :
  list_ascii_of_string (a +:+ b)
  = (list_ascii_of_string a ++ list_ascii_of_string b)%list.
Proof. induction a as [|c a IH]; simpl; [reflexivity|]. rewrite IH. reflexivity. Qed.

Lemma upper_join (ws : list string) :
  PyStr.upper (PyStr.join " " ws) = PyStr.join " " (map PyStr.upper ws).
Proof.
  induction ws as [|w ws IH]; [reflexivity|].
  destruct ws as [|w' ws]; [reflexivity|].
  change (PyStr.join " " (w :: w' :: ws))
    with (w +:+ " " +:+ PyStr.join " " (w' :: ws)).
  change (PyStr.join " " (map PyStr.upper (w :: w' :: ws)))
    with (PyStr.upper w +:+ " " +:+ PyStr.join " " (map PyStr.upper (w' :: ws))).
  rewrite !upper_append, IH. reflexivity.
Qed.

(** Splitting at white space commutes with the upper case. *)
Lemma split_ws_go_upper (acc l : list ascii) :
  PyStr.split_ws_go (map PyStr.upper_char acc) (map PyStr.upper_char l)
  = map PyStr.upper (PyStr.split_ws_go acc l).
Proof.
  revert acc. induction l as [|c l IH]; intros acc; simpl.
  - destruct acc as [|a acc]; [reflexivity|]. simpl.
    rewrite upper_of_list, map_app, map_rev. reflexivity.
  - rewrite isspace_upper_char. destruct (PyStr.isspace c).
    + destruct acc as [|a acc]; simpl.
      * apply (IH []).
      * rewrite upper_of_list, map_app, map_rev. f_equal. apply (IH []).
    + apply (IH (c :: acc)).
Qed.

Lemma split_ws_upper (s : string) :
  PyStr.split_ws (PyStr.upper s) = map PyStr.upper (PyStr.split_ws s).
Proof.
  unfold PyStr.split_ws. rewrite list_of_upper. apply (split_ws_go_upper []).
Qed.

(** The pieces of a split at white space are not empty and hold no white
    space. *)
Lemma split_ws_go_words (acc l : list ascii) :
  Forall (fun c => PyStr.isspace c = false) acc ->
  Forall (fun w => list_ascii_of_string w <> [] /\
                   Forall (fun c => PyStr.isspace c = false)
                     (list_ascii_of_string w))
         (PyStr.split_ws_go acc l).
Proof.
  revert acc. induction l as [|c l IH]; intros acc Hacc; simpl.
  - destruct acc as [|a acc]; [constructor|]. constructor; [|constructor].
    rewrite list_ascii_of_string_of_list_ascii. split.
    + simpl. intros H. apply app_eq_nil in H as [_ H]. discriminate.
    + apply Forall_rev in Hacc. exact Hacc.
  - destruct (PyStr.isspace c) eqn:Hc.
    + destruct acc as [|a acc]; [apply IH; constructor|].
      constructor; [|apply IH; constructor].
      rewrite list_ascii_of_string_of_list_ascii. split.
      * simpl. intros H. apply app_eq_nil in H as [_ H]. discriminate.
      * apply Forall_rev in Hacc. exact Hacc.
    + apply IH. constructor; assumption.
Qed.

Lemma split_ws_go_word (acc w rest : list ascii) :
  Forall (fun c => PyStr.isspace c = false) w ->
  PyStr.split_ws_go acc (w ++ rest)
  = PyStr.split_ws_go (rev w ++ acc) rest.
Proof.
  revert acc. induction w as [|c w IH]; intros acc Hw; [reflexivity|].
  apply Forall_cons in Hw as [Hc Hw]. simpl. rewrite Hc, IH by exact Hw.
  rewrite <- app_assoc. reflexivity.
Qed.

(** Joining such pieces with one space and splitting again gives the
    pieces back. *)
Lemma split_ws_join (ws : list string) :
  Forall (fun w => list_ascii_of_string w <> [] /\
                   Forall (fun c => PyStr.isspace c = false)
                     (list_ascii_of_string w)) ws ->
  PyStr.split_ws (PyStr.join " " ws) = ws.
Proof.
  unfold PyStr.split_ws. induction ws as [|w ws IH]; [reflexivity|].
  intros Hws. apply Forall_cons in Hws as [[Hne Hw] Hws].
  destruct ws as [|w' ws].
  - simpl. rewrite <- (app_nil_r (list_ascii_of_string w)).
    rewrite split_ws_go_word by exact Hw. simpl. rewrite app_nil_r.
    destruct (rev (list_ascii_of_string w)) eqn:Hrev.
    + apply (f_equal (@rev ascii)) in Hrev. rewrite rev_involutive in Hrev.
      contradiction.
    + rewrite <- Hrev, rev_involutive, string_of_list_ascii_of_string.
      reflexivity.
  - change (PyStr.join " " (w :: w' :: ws))
      with (w +:+ " " +:+ PyStr.join " " (w' :: ws)).
    rewrite !list_of_append. simpl.
    rewrite split_ws_go_word by exact Hw. simpl. rewrite app_nil_r.
    destruct (rev (list_ascii_of_string w)) eqn:Hrev.
    + apply (f_equal (@rev ascii)) in Hrev. rewrite rev_involutive in Hrev.
      contradiction.
    + rewrite <- Hrev, rev_involutive, string_of_list_ascii_of_string.
      f_equal. apply IH. exact Hws.
Qed.

Lemma normalize_code_idem (code : string) :
  normalize_code (normalize_code code) = normalize_code code.
Proof.
  unfold normalize_code.
  rewrite upper_join, split_ws_upper, map_map.
  rewrite (map_ext _ PyStr.upper) by (intros w; apply upper_idem).
  rewrite <- split_ws_upper.
  rewrite split_ws_join; [reflexivity|].
  apply (split_ws_go_words [] _). constructor.
Qed.

(** The canonical form of a code of code points below 128 is such a
    code. *)
Lemma isascii_of_list (l : list ascii) :
  PyStr.isascii (string_of_list_ascii l)
  = forallb (fun c => (PyStr.ord c <? 128)%N) l.
Proof.
  unfold PyStr.isascii. rewrite list_ascii_of_string_of_list_ascii.
  reflexivity.
Qed.

Lemma isascii_rev (acc : list ascii) :
  forallb (fun c => (PyStr.ord c <? 128)%N) acc = true ->
  PyStr.isascii (string_of_list_ascii (rev acc)) = true.
Proof.
  intros Hacc. rewrite isascii_of_list. apply forallb_forall.
  intros x Hx. apply in_rev in Hx.
  exact (proj1 (forallb_forall _ _) Hacc x Hx).
Qed.

Lemma split_ws_go_isascii (acc l : list ascii) :
  forallb (fun c => (PyStr.ord c <? 128)%N) acc = true ->
  forallb (fun c => (PyStr.ord c <? 128)%N) l = true ->
  Forall (fun w => PyStr.isascii w = true) (PyStr.split_ws_go acc l).
Proof.
  revert acc. induction l as [|c l IH]; intros acc Hacc Hl.
  - cbn [PyStr.split_ws_go]. destruct acc as [|a acc]; [constructor|].
    constructor; [|constructor]. apply isascii_rev. exact Hacc.
  - cbn [forallb] in Hl. apply andb_true_iff in Hl as [Hc Hl].
    cbn [PyStr.split_ws_go]. destruct (PyStr.isspace c).
    + destruct acc as [|a acc]; [apply IH; [reflexivity | exact Hl]|].
      constructor; [apply isascii_rev; exact Hacc|].
      apply IH; [reflexivity | exact Hl].
    + apply IH; [|exact Hl]. cbn [forallb]. rewrite Hc. exact Hacc.
Qed.

Lemma isascii_append (a b : string) :
  PyStr.isascii (a +:+ b) = PyStr.isascii a && PyStr.isascii b.
Proof. unfold PyStr.isascii. rewrite list_of_append. apply forallb_app. Qed.

Lemma isascii_join (ws : list string) :
  Forall (fun w => PyStr.isascii w = true) ws ->
  PyStr.isascii (PyStr.join " " ws) = true.
Proof.
  induction ws as [|w ws IH]; [reflexivity|].
  intros Hws. apply Forall_cons in Hws as [Hw Hws].
  destruct ws as [|w' ws]; [exact Hw|].
  change (PyStr.join " " (w :: w' :: ws))
    with (w +:+ " " +:+ PyStr.join " " (w' :: ws)).
  rewrite !isascii_append, Hw, (IH Hws). reflexivity.
Qed.

Lemma isascii_normalize_code (code : string) :
  PyStr.isascii code = true -> PyStr.isascii (normalize_code code) = true.
Proof.
  intros Hascii. unfold normalize_code. apply isascii_join.
  apply split_ws_go_isascii; [reflexivity|].
  rewrite <- isascii_upper in Hascii. exact Hascii.
Qed.

(** X16: for a code of code points below 128, whose upper case and white
    space the model has as Python does, the form [get_index_quote] gives
    the code, upper case with runs of white space turned into one space
    and none at the ends, is again such a code and is stable: giving it
    again changes nothing, so that a code and its form are looked up
    alike, and so are two codes that differ in letter case only. *)
Theorem normalize_code_idempotent (code : string) :
  PyStr.isascii code = true ->
  PyStr.isascii (normalize_code code) = true /\
  normalize_code (normalize_code code) = normalize_code code /\
  normalize_code (PyStr.upper code) = normalize_code code /\
  (forall (E : Env) (st : Nse * World),
     get_index_quote E (normalize_code code) st = get_index_quote E code st /\
     get_index_quote E (PyStr.upper code) st = get_index_quote E code st).
Proof.
  intros Hascii.
  assert (Hupper : normalize_code (PyStr.upper code) = normalize_code code).
  { unfold normalize_code. rewrite upper_idem. reflexivity. }
  split; [exact (isascii_normalize_code code Hascii)|].
  split; [apply normalize_code_idem|]. split; [exact Hupper|].
  intros E st. unfold get_index_quote.
  rewrite normalize_code_idem, Hupper. split; reflexivity.
Qed.

Lemma normalize_code_idempotent_witness :
  PyStr.isascii " nifty  50 " = true /\
  normalize_code " nifty  50 " = "NIFTY 50" /\
  normalize_code (normalize_code " nifty  50 ") = normalize_code " nifty  50 ".
Proof.
  split; [reflexivity|]. split; [reflexivity|].
  exact (proj1 (proj2 (normalize_code_idempotent " nifty  50 " eq_refl))).
Defined.


(** ** The remaining queries *)

(** X17: for a code of code points below 128, whose upper case the model
    has as Python does, [get_quote] asks for the quote of the code in
    upper case, so that the letter case of the code does not matter, the
    upper case being again such a code.  When the payload is
    a mapping, the call with [all_data] returns it normalised at its top
    level, the entry [priceInfo] staying as it came when it is a mapping
    itself, and the call without [all_data] returns the entry [priceInfo]
    normalised, or raises [KeyError] when there is none; the state is the
    one the fetch left. *)
Theorem quote_is_price_info
  (E : Env) (C : Catalog) (code url : string) (st s1 : Nse * World)
  (resp : Response) (p : gmap string pyval) :
  PyStr.isascii code = true ->
  QUOTE_API_URL C (PyStr.upper code) = Ok url ->
  fetch E url st = (Ok resp, s1) ->
  json resp = Ok (VDict p) ->
  PyStr.isascii (PyStr.upper code) = true /\
  get_quote E C code true st
    = (Ok (VDict (spec_normalize (int_max_str_digits E) p)), s1) /\
  match p !! "priceInfo" with
  | None => get_quote E C code false st = (Raise (KeyError "priceInfo"), s1)
  | Some (VDict m) =>
      get_quote E C code false st
        = (Ok (VDict (spec_normalize (int_max_str_digits E) m)), s1) /\
      spec_normalize (int_max_str_digits E) p !! "priceInfo" = Some (VDict m)
  | Some v => get_quote E C code false st = (cast E v, s1)
  end /\
  (forall all_data st',
     get_quote E C (PyStr.upper code) all_data st'
     = get_quote E C code all_data st').
Proof.
  intros Hascii Hurl Hfetch Hjson.
  split; [rewrite isascii_upper; exact Hascii|]. split; [|split].
  - unfold get_quote, bind, lift. rewrite Hurl, Hfetch. simpl.
    rewrite Hjson. unfold cast. simpl. rewrite cast_dict_spec. reflexivity.
  - assert (Hcall : get_quote E C code false st
                    = (Res.bind (subscript (VDict p) "priceInfo") (cast E), s1)).
    { unfold get_quote, bind, lift. rewrite Hurl, Hfetch. simpl.
      rewrite Hjson. simpl. destruct (p !! "priceInfo"); reflexivity. }
    rewrite Hcall. simpl.
    destruct (p !! "priceInfo") as [v|] eqn:Hp; [|reflexivity].
    destruct v; try reflexivity. split.
    + unfold cast. simpl. rewrite cast_dict_spec. reflexivity.
    + unfold spec_normalize. rewrite lookup_fmap, Hp. reflexivity.
  - intros all_data st'. unfold get_quote. rewrite upper_idem. reflexivity.
Qed.

Lemma quote_is_price_info_witness :
  get_quote E_quote C_demo "infy" false (client E_quote)
  = (Ok (VDict (spec_normalize 4300
                  (<["lastPrice" := VStr "1520.5"]>
                     (<["change" := VStr "-"]> ∅)))),
     (fetch E_quote "quote?symbol=INFY" (client E_quote)).2).
Proof.
  destruct (quote_is_price_info E_quote C_demo "infy" "quote?symbol=INFY"
              (client E_quote)
              (fetch E_quote "quote?symbol=INFY" (client E_quote)).2
              {| json := Ok (VDict quote_payload) |} quote_payload)
    as (_ & _ & Hprice & _).
  - reflexivity.
  - reflexivity.
  - vm_compute. reflexivity.
  - reflexivity.
  - exact (proj1 Hprice).
Defined.

(** X18: for a code of code points below 128, whose upper case and white
    space the model has as Python does, [get_advances_declines] looks at
    its code through the same canonical form as [get_index_quote], which
    is again such a code: a code, its upper case and its canonical form
    give the same call.  When the payload is a mapping the
    call returns its entry [advance] normalised, or raises [KeyError] when
    there is none, the state being the one the fetch left. *)
Theorem advances_declines_canonical
  (E : Env) (C : Catalog) (code : string) (st : Nse * World) :
  PyStr.isascii code = true ->
  PyStr.isascii (normalize_code code) = true /\
  get_advances_declines E C (normalize_code code) st
    = get_advances_declines E C code st /\
  get_advances_declines E C (PyStr.upper code) st
    = get_advances_declines E C code st /\
  (forall url resp s1 p,
     EQUITY_STOCK_INDICES_URL C (normalize_code code) = Ok url ->
     fetch E url st = (Ok resp, s1) ->
     json resp = Ok (VDict p) ->
     get_advances_declines E C code st
     = (match p !! "advance" with
        | Some v => cast E v
        | None => Raise (KeyError "advance")
        end, s1)).
Proof.
  intros Hascii. split; [exact (isascii_normalize_code code Hascii)|].
  split; [|split].
  - unfold get_advances_declines.
    change (PyStr.join " " (PyStr.split_ws (PyStr.upper (normalize_code code))))
      with (normalize_code (normalize_code code)).
    rewrite normalize_code_idem. reflexivity.
  - unfold get_advances_declines. rewrite upper_idem. reflexivity.
  - intros url resp s1 p Hurl Hfetch Hjson.
    unfold get_advances_declines, bind, lift.
    change (PyStr.join " " (PyStr.split_ws (PyStr.upper code)))
      with (normalize_code code).
    rewrite Hurl, Hfetch, Hjson. simpl.
    destruct (p !! "advance"); reflexivity.
Qed.

Lemma advances_declines_canonical_witness :
  PyStr.isascii " nifty  50" = true /\
  get_advances_declines E_quote C_demo " nifty  50" (client E_quote)
  = (Raise (KeyError "advance"),
     (fetch E_quote "index?index=NIFTY 50" (client E_quote)).2).
Proof.
  split; [reflexivity|].
  rewrite (proj2 (proj2 (proj2 (advances_declines_canonical
                                  E_quote C_demo " nifty  50" (client E_quote)
                                  eq_refl)))
             "index?index=NIFTY 50" {| json := Ok (VDict ∅) |}
             (fetch E_quote "index?index=NIFTY 50" (client E_quote)).2 ∅).
  - rewrite lookup_empty. reflexivity.
  - reflexivity.
  - vm_compute. reflexivity.
  - reflexivity.
Defined.

Lemma map_clean_server_response (items : list pyval) :
  map clean_server_response items = replicate (length items) VNone.
Proof. induction items as [|a l IH]; simpl; [reflexivity|]. rewrite IH. reflexivity. Qed.

(** X19: [clean_server_response] having no body, the queries on the
    derivatives movers return [None] for every item of the [data] of the
    payload: a list of the length of [data] that holds no data.  They send
    one request through the opener and do not touch the session. *)
Theorem fno_movers_return_nones
  (E : Env) (C : Catalog) (q : movers) (as_json : bool)
  (self : Nse) (w : World) (text : string) (res_dict data : pyval)
  (items : list pyval) :
  opener_open E (length (traffic w)) "Request(url, None, self.headers)"
    = Ok (Some text) ->
  json_load C text = Ok res_dict ->
  subscript res_dict "data" = Ok data ->
  py_iter data = Ok items ->
  get_top_fno E C q as_json (self, w)
  = (Ok (rendering_list C (replicate (length items) VNone) as_json),
     (self, send opener_request w)).
Proof.
  intros Hopen Hload Hdata Hiter.
  destruct q; simpl; unfold get_top_fno_gainers, get_top_fno_losers, bind,
    opener_open_, lift, render_response_list, ret; rewrite Hopen, Hload, Hdata,
    Hiter, map_clean_server_response; reflexivity.
Qed.

Lemma fno_movers_return_nones_witness :
  get_top_fno E_quote C_demo Gainers false (client E_quote)
  = (Ok (NativeList [VNone; VNone]),
     ((client E_quote).1, send opener_request (client E_quote).2)).
Proof.
  apply (fno_movers_return_nones E_quote C_demo Gainers false
           (client E_quote).1 (client E_quote).2 "fno" fno_payload
           (VList [VDict (<["symbol" := VStr "INFY"]> ∅);
                   VDict (<["symbol" := VStr "TCS"]> ∅)])
           [VDict (<["symbol" := VStr "INFY"]> ∅);
            VDict (<["symbol" := VStr "TCS"]> ∅)]).
  - reflexivity.
  - reflexivity.
  - vm_compute. reflexivity.
  - reflexivity.
Defined.


(** ** The index list and the index quote *)

(** X20: [get_index_list] and [get_index_quote] agree at a state: a
    symbol of the list that is in canonical form is quoted, the result
    being a mapping, so that neither the filter nor the normaliser raises
    once the code is found; a symbol of the list whose canonical form is
    not in the list, for instance one with a lower-case letter, is
    rejected as a wrong code although it is listed. *)
Theorem index_list_decides_index_quote
  (E : Env) (st s1 : Nse * World) (symbols : list pyval) (s : string) :
  get_index_list E st = (Ok symbols, s1) ->
  VStr s ∈ symbols ->
  (VStr (normalize_code s) ∈ symbols ->
   exists m, get_index_quote E s st = (Ok (VDict m), s1)) /\
  (VStr (normalize_code s) ∉ symbols ->
   get_index_quote E s st = (Raise (Exception "Wrong index code"), s1)).
Proof.
  unfold get_index_list, bind, lift. intros Hlist Hs.
  destruct (get_all_index_quote E st) as [[q|e] s0] eqn:Hall; [|discriminate].
  destruct (index_symbols q) as [syms|e] eqn:Hsym; [|discriminate].
  injection Hlist as -> ->.
  unfold index_symbols in Hsym.
  destruct (py_iter q) as [items|e] eqn:Hiter; [|discriminate].
  simpl in Hsym. split.
  - intros Hin.
    destruct (filter_symbol_first (normalize_code s) items symbols Hsym)
      as [_ Hfirst].
    destruct (Hfirst Hin) as (pre & item & post & found & _ & Hitem & _ & Hf).
    destruct item; try discriminate.
    exists (spec_normalize (int_max_str_digits E) d).
    unfold get_index_quote, bind, lift. rewrite Hall.
    unfold index_symbols. rewrite Hiter. simpl. rewrite Hsym.
    rewrite (existsb_eq_str_true _ _ Hin), Hf.
    unfold cast. simpl. rewrite cast_dict_spec. reflexivity.
  - intros Hnot. unfold get_index_quote, bind, lift. rewrite Hall.
    unfold index_symbols. rewrite Hiter. simpl. rewrite Hsym.
    rewrite (existsb_eq_str _ _ Hnot). reflexivity.
Qed.

Lemma index_list_decides_index_quote_witness :
  get_index_quote E_mixed "Nifty Midcap" (client E_mixed)
  = (Raise (Exception "Wrong index code"),
     (get_index_list E_mixed (client E_mixed)).2).
Proof.
  destruct (index_list_decides_index_quote E_mixed (client E_mixed)
              (get_index_list E_mixed (client E_mixed)).2
              [VStr "NIFTY 50"; VStr "Nifty Midcap"] "Nifty Midcap")
    as [_ Hwrong].
  - vm_compute. reflexivity.
  - right. left.
  - apply Hwrong. intros Hin. apply list_elem_of_In in Hin. simpl in Hin.
    destruct Hin as [Heq|[Heq|[]]]; vm_compute in Heq; discriminate.
Defined.

(** ** The age of a session *)

(** X21: [fetch] looks at the seconds within the day of the age of the
    session, so that whole days do not count, forwards or backwards: at an
    age of [k] days and [r] microseconds, with [r] within one day, the
    session is renewed exactly when [r] is at least the refresh interval.
    A session older than a day may thus be reused, and one whose creation
    time is ahead of the clock is renewed or not by the same rule. *)
Theorem expiry_counts_seconds_of_day
  (E : Env) (self : Nse) (w : World) (url : string) (k r : Z) :
  now E (clock_reads w) - _session_init_time self = k * 86400000000 + r ->
  0 <= r < 86400000000 ->
  expired E (self, w) = negb (r <? session_refresh_interval self * 1000000) /\
  (r < session_refresh_interval self * 1000000 ->
   fetch E url (self, w)
   = (session_get E (length (traffic w)) (_session self) url,
      (self, send (SessionGet (_session self) url) (tick w)))) /\
  (session_refresh_interval self * 1000000 <= r ->
   sessions_made (fetch E url (self, w)).2.2 = S (sessions_made w)).
Proof.
  intros Hage Hr.
  assert (Hsec : timedelta_seconds
                   (now E (clock_reads w) - _session_init_time self)
                 = timedelta_seconds r).
  { rewrite Hage. unfold timedelta_seconds.
    rewrite Z.add_comm, Z.mod_add by lia. reflexivity. }
  assert (Hexp : expired E (self, w)
                 = negb (r <? session_refresh_interval self * 1000000)).
  { unfold expired. simpl. rewrite Hsec, timedelta_seconds_ltb by exact Hr.
    reflexivity. }
  split; [exact Hexp|]. split.
  - intros Hlive. rewrite fetch_cases, Hexp.
    replace (r <? _) with true by (symmetry; apply Z.ltb_lt; exact Hlive).
    reflexivity.
  - intros Hold. rewrite fetch_cases, Hexp.
    replace (r <? _) with false by (symmetry; apply Z.ltb_ge; exact Hold).
    simpl. destruct (session_get E _ _ _); reflexivity.
Qed.

Lemma expiry_counts_seconds_of_day_witness :
  fetch E_next_day "a" (client E_next_day)
  = (session_get E_next_day 1 0 "a",
     ((client E_next_day).1,
      send (SessionGet 0 "a") (tick (client E_next_day).2))).
Proof.
  apply (expiry_counts_seconds_of_day E_next_day (client E_next_day).1
           (client E_next_day).2 "a" 1 10000000).
  - vm_compute. reflexivity.
  - lia.
  - vm_compute. reflexivity.
Defined.

